(** * translator_v3: the data processor and the training orchestrator

    A shallow embedding of [translator/data.py] (class [Processor]) and
    [translator/training.py] (function [main]).

    Both files are glue around third-party libraries (transformers, datasets,
    peft).  The embedding keeps the control flow of the Python source as it is
    written: local variables that may be unbound are [option]s, exceptions are
    an [Outcome], and every call that leaves the repository is recorded in a
    trace of [Event]s, so that "which library call is issued, with which
    arguments, before which other" is a statement about that trace. *)

From Stdlib Require Import ZArith Lia.
From stdpp Require Import base option list gmap strings.

Local Open Scope string_scope.
Local Open Scope list_scope.

(** ** Python values, exceptions, outcomes *)

(** The exceptions the two files can raise or let through. *)
Inductive Exn : Type :=
| ValueError (msg : string)
| TypeError (msg : string)
| KeyError (key : string)
| AttributeError (msg : string)
| UnboundLocalError (name : string)
| AssertionError (msg : string)
| IndexError (msg : string)
| LibraryError (msg : string).

Inductive Outcome (A : Type) : Type :=
| Return (a : A)
| Raise (e : Exn).
Arguments Return {A} a.
Arguments Raise {A} e.

(** A column of a dataset row: raw text before tokenization, a list of token
    ids after it. *)
Inductive Val : Type :=
| VText (s : string)
| VIds (ids : list Z).

(** A dataset row is a Python dict from column names to values; a dataset is
    modelled by the rows it yields, in order (for a streaming dataset: the rows
    of the stream). *)
Abbreviation Row := (gmap string Val).
Abbreviation Dataset := (list (gmap string Val)).

(** What a tokenizer call returns ([BatchEncoding]): a dict of id lists. *)
Abbreviation Encoding := (gmap string (list Z)).

(** ** The tokenizer (transformers), as the code uses it *)

Inductive TokInput : Type :=
| Text (x : Val)            (* tokenizer(x, ...) *)
| TextTarget (x : Val).     (* tokenizer(text_target=x, ...) *)

(** [tokenizer_call inp max_length padding truncation] is the call
    [tokenizer(inp, max_length=..., padding=..., truncation=...)]. *)
Record Tokenizer : Type := {
  tokenizer_call : TokInput -> option Z -> string -> bool -> Exn + Encoding;
  pad_token_id : option Z;
  eos_token_id : option Z;
  padding_side : string
}.

(** The contract of [padding="max_length", truncation=True] with a given
    [max_length]: whenever the call returns, [input_ids] is there and has
    exactly that length. *)
Definition pads_to_max_length (tok : Tokenizer) : Prop :=
  forall inp (L : Z) enc,
    tokenizer_call tok inp (Some L) "max_length" true = inr enc ->
    exists ids, enc !! "input_ids" = Some ids /\ Z.of_nat (length ids) = L.

(** ** Argument groups

    [translator/arguments.py] is not part of the sources; the records list the
    attributes the two files read, with the types the code treats them as. *)

Record DataTrainingArguments : Type := {
  train_dir : option string;
  valid_dir : option string;
  data_name : option string;
  dataset_name_train : option string;
  dataset_name_validation : option string;
  max_train_samples : option Z;
  max_valid_samples : option Z;
  streaming : bool;
  max_len : option Z;
  dataset_num_workers : option Z
}.

(** ** Calls that leave the repository *)

Inductive MapFn : Type :=
| FnGroup                                   (* lambda example: self.group_fn(example) *)
| FnA2B (language_a language_b : string).   (* a_2_b with fn_kwargs *)

(** The keyword arguments of one [dataset.map(...)] call.  [mc_num_proc] is
    [None] when the call has no [num_proc] keyword, and [Some v] when it has
    [num_proc=v] ([v] itself may be Python's [None]). *)
Record MapCall : Type := {
  mc_fn : MapFn;
  mc_batched : bool;
  mc_remove_columns : list string;
  mc_num_proc : option (option Z)
}.

Inductive ModelClass : Type := AutoModelForSeq2SeqLM | AutoModelForCausalLM.

Inductive Event : Type :=
(* data.py *)
| EvLoadFromDisk (dataset_path : string)
| EvLoadDataset (name split : string) (streaming_kw : option bool)
| EvLoggerInfo (msg : string)
| EvLoggerWarning (msg : string)
| EvPrint (msg : string)
| EvSelect (n : Z)
| EvTake (n : Z)
| EvFromList
| EvMultiTrans (language_a language_b : string)
| EvMap (call : MapCall)
| EvInterleave (seed : Z)
| EvShuffle (seed buffer_size : Z)
(* training.py *)
| EvSetVerbosityInfo
| EvSetLevel
| EvGetLastCheckpoint (dir : string)
| EvSetSeed (seed : Z)
| EvAutoConfig (name : string)
| EvConfigMapping (model_type : option string)
| EvConfigUpdate (overrides : string)
| EvAutoTokenizer (name : string) (trust_remote_code : bool)
| EvBitsAndBytesConfig
| EvModelFromPretrained (cls : ModelClass) (name : string) (quantized : bool)
| EvLoraConfig (target_modules : list string)
| EvPrepareInt8
| EvGetPeftModel
| EvPrintTrainable
| EvDataCollator (pad_to_multiple_of : Z)
| EvTrainer
| EvTrain
| EvSavePretrained (save_directory : option string).

(** ** The monad: a trace of events and an outcome *)

Definition M (A : Type) : Type := (list Event * Outcome A)%type.

Definition trace {A} (m : M A) : list Event := m.1.
Definition outcome {A} (m : M A) : Outcome A := m.2.

#[export] Instance M_ret : MRet M := fun A a => ([], Return a).

#[export] Instance M_bind : MBind M := fun A B f m =>
  match m with
  | (t, Return a) => let '(t', o) := f a in (t ++ t', o)
  | (t, Raise e) => (t, Raise e)
  end.

Definition raise {A} (e : Exn) : M A := ([], Raise e).

Definition emit (ev : Event) : M unit := ([ev], Return tt).

(** A library result that may be an exception. *)
Definition lift_sum {A} (r : Exn + A) : M A :=
  match r with
  | inl e => raise e
  | inr a => mret a
  end.

(** [d[key]] on a dict. *)
Definition getitem {V} (d : gmap string V) (key : string) : M V :=
  match d !! key with
  | Some v => mret v
  | None => raise (KeyError key)
  end.

(** [try: body / except: handler] with a bare [except]. *)
Definition try_except {A} (body handler : M A) : M A :=
  match body with
  | (t, Return a) => (t, Return a)
  | (t, Raise _) => let '(t', o) := handler in (t ++ t', o)
  end.

(** ** The world outside the process *)

Record World : Type := {
  path_exists : string -> bool;                          (* os.path.exists *)
  isdir : string -> bool;                                (* os.path.isdir *)
  listdir : string -> list string;                       (* os.listdir *)
  get_last_checkpoint : string -> option string;
  load_from_disk : string -> Exn + gmap string Dataset;  (* a DatasetDict *)
  load_dataset : string -> string -> bool -> Exn + Dataset;
  interleave_datasets : list Dataset -> Z -> Dataset;
  shuffle : Dataset -> Z -> Z -> Dataset;
  from_pretrained_tokenizer : string -> Tokenizer;
  (* tokenizer.__call__ of a tokenizer once its pad token has the given id and
     its padding_side is the given side: both are read at every call *)
  tokenizer_with_padding :
    Tokenizer -> option Z -> string ->
    TokInput -> option Z -> string -> bool -> Exn + Encoding;
  (* Whether a library call of training.py raises, and what.  These calls
     return objects that the code only passes on. *)
  fails : Event -> option Exn
}.

(** ** The datasets library, on rows *)

(** [Dataset.select(range(n))]: the first [n] rows; an index past the end is
    an [IndexError]; [range] of a non-positive number selects nothing. *)
Definition select_range (n : Z) (ds : Dataset) : M Dataset :=
  _ ← emit (EvSelect n);
  if (n <=? Z.of_nat (length ds))%Z then mret (take (Z.to_nat n) ds)
  else raise (IndexError "Index out of range for dataset").

(** [list(dataset.take(n))]: the first [n] rows, fewer when the dataset is
    shorter. *)
Definition take_rows (n : Z) (ds : Dataset) : M Dataset :=
  _ ← emit (EvTake n);
  if (n <? 0)%Z then raise (ValueError "Stop argument for islice() must be None or an integer: 0 <= x <= sys.maxsize.")
  else mret (take (Z.to_nat n) ds).

Definition from_list (rows : Dataset) : M Dataset :=
  _ ← emit EvFromList; mret rows.

(** [dataset.map(fn, remove_columns=cols, ...)], row by row: the listed
    columns are dropped from the row, then the row is updated with what [fn]
    returned.  (A batched function is modelled by what it does to each row of
    the batch.)

    [dataset_map] gives the rows of the mapped dataset, that is, what reading
    it through yields.  A [Dataset] is mapped inside the call; an
    [IterableDataset] is mapped when it is read, so an exception of [fn]
    reaches the reader of the stream and not the caller of [map].  The model
    attaches the outcome to the call in both cases: it is exact about the
    rows of a run that returns, and says where a failure comes from, not
    when it is reported.  [Dataset.map] also checks, before it maps, that the
    dataset has every column it is asked to remove; rows are not tied to a
    schema here, and that check is left out. *)
Definition remove_columns (cols : list string) (row : Row) : Row :=
  foldr delete row cols.

Definition dataset_map (call : MapCall) (fn : Row -> M Row) (ds : Dataset) : M Dataset :=
  _ ← emit (EvMap call);
  mapM (fun row => out ← fn row; mret (out ∪ remove_columns (mc_remove_columns call) row)) ds.

(** ** Directional augmentation ([translator.features.finetune.utils]) *)

(** A directional example: the columns [Processor.group_fn] reads. *)
Definition directional (source target : Val) : Row :=
  <["targets" := target]> {["inputs" := source]}.

(** Modelled from the spec: [a_2_b] of [translator/features/finetune/utils.py],
    which is not among the sources.  The spec says a bilingual row is turned
    into a directional example whose source is the text in [language_a] and
    whose target is the text in [language_b]; the source columns are called
    [inputs] and [targets] in [Processor.group_fn]. *)
Definition a_2_b (language_a language_b : string) (row : Row) : M Row :=
  a ← getitem row language_a;
  b ← getitem row language_b;
  mret (directional a b).

(** Modelled from the spec: [multi_trans] of the same missing module.  "Given a
    bilingual row [{en: a, vi: b}], directional augmentation yields exactly two
    rows: one with source a / target b and one with source b / target a." *)
Definition multi_trans (ds : Dataset) (language_a language_b : string) : M Dataset :=
  _ ← emit (EvMultiTrans language_a language_b);
  pairs ← mapM (fun row =>
                  ab ← a_2_b language_a language_b row;
                  ba ← a_2_b language_b language_a row;
                  mret [ab; ba]) ds;
  mret (concat pairs).

(** ** [class Processor] of data.py *)

Module Processor.

Record self : Type := {
  tokenizer : Tokenizer;
  batch_size : Z;
  data_args : DataTrainingArguments;
  seed : Z
}.

(** [__init__(self, tokenizer, batch_size, data_args, seed)]: four required
    positional parameters, none with a default.  [seed_arg] is [None] when the
    call site passes three arguments only, which Python answers with a
    [TypeError] before the body runs. *)
Definition __init__ (tokenizer : Tokenizer) (batch_size : Z)
    (data_args : DataTrainingArguments) (seed_arg : option Z) : M self :=
  match seed_arg with
  | Some seed =>
      mret {| tokenizer := tokenizer; batch_size := batch_size;
              data_args := data_args; seed := seed |}
  | None =>
      raise (TypeError "Processor.__init__() missing 1 required positional argument: 'seed'")
  end.

(** The ignore index of the loss. *)
Definition ignore_index : Z := (-100)%Z.

(** [l != self.tokenizer.pad_token_id]; an int never equals [None]. *)
Definition ne_pad (l : Z) (pad : option Z) : bool :=
  match pad with
  | Some p => negb (l =? p)%Z
  | None => true
  end.

(** [(l if l != self.tokenizer.pad_token_id else -100)]. *)
Definition mask_pad (pad : option Z) (l : Z) : Z :=
  if ne_pad l pad then l else ignore_index.

(** [tokenize_fn(self, x, length, padding=True, target=False)]. *)
Definition tokenize_fn (s : self) (x : Val) (length : option Z) (target : bool) : M Encoding :=
  if negb target then
    lift_sum (tokenizer_call (tokenizer s) (Text x)
                (match length with None => None | Some l => Some l end)
                "max_length" true)
  else
    lift_sum (tokenizer_call (tokenizer s) (TextTarget x)
                (match length with None => None | Some l => Some l end)
                "max_length" true).

(** [group_fn(self, example)]. *)
Definition group_fn (s : self) (example : Row) : M Encoding :=
  x ← getitem example "inputs";
  model_inputs ← tokenize_fn s x (max_len (data_args s)) false;
  y ← getitem example "targets";
  labels ← tokenize_fn s y (max_len (data_args s)) true;
  ids ← getitem labels "input_ids";
  let labels := <["input_ids" := map (mask_pad (pad_token_id (tokenizer s))) ids]> labels in
  label_ids ← getitem labels "input_ids";
  mret (<["labels" := label_ids]> model_inputs).

(** [dataset.map] where [dataset] may be [None]. *)
Definition map_method (dataset : option Dataset) (call : MapCall) (fn : Row -> M Row) : M Dataset :=
  match dataset with
  | Some ds => dataset_map call fn ds
  | None => raise (AttributeError "'NoneType' object has no attribute 'map'")
  end.

(** [process_fn(self, dataset)]. *)
Definition process_fn (s : self) (dataset : option Dataset) : M Dataset :=
  if streaming (data_args s) then
    map_method dataset
      {| mc_fn := FnGroup; mc_batched := false;
         mc_remove_columns := ["inputs"; "targets"]; mc_num_proc := None |}
      (fun example => enc ← group_fn s example; mret (VIds <$> enc))
  else
    map_method dataset
      {| mc_fn := FnGroup; mc_batched := false;
         mc_remove_columns := ["inputs"; "targets"];
         mc_num_proc := Some (dataset_num_workers (data_args s)) |}
      (fun example => enc ← group_fn s example; mret (VIds <$> enc)).

Section WithWorld.
Variable w : World.

(** [load_data(self, data_path, key)].  The function has no [return] after the
    [except] block, so it hands back [None] there. *)
Definition load_data (s : self) (data_path : string) (key : string) : M (option Dataset) :=
  if negb (path_exists w data_path) then
    raise (ValueError ("Not found " +:+ data_path +:+ " path."))
  else
    try_except
      (let data_file := data_path in
       if streaming (data_args s) then
         _ ← emit (EvLoadFromDisk data_file);
         dd ← lift_sum (load_from_disk w data_file);
         dataset ← getitem dd key;
         mret (Some dataset)
       else
         _ ← emit (EvLoadFromDisk data_file);
         dd ← lift_sum (load_from_disk w data_file);
         dataset ← getitem dd key;
         mret (Some dataset))
      (_ ← emit (EvLoggerInfo ("Error loading dataset " +:+ data_path));
       _ ← emit (EvPrint ("Error loading dataset " +:+ data_path));
       mret None).

(** [dataset.select(range(n))] where [dataset] may be [None]. *)
Definition select_method (dataset : option Dataset) (n : Z) : M (option Dataset) :=
  match dataset with
  | Some ds => ds' ← select_range n ds; mret (Some ds')
  | None => raise (AttributeError "'NoneType' object has no attribute 'select'")
  end.

(** [list(train_data.take(n))] on what [load_dataset] returned: with
    [streaming=True] that is an [IterableDataset], which has [take]; without,
    it is a [Dataset], which in datasets 2.18 has no such method. *)
Definition take_method (streaming : bool) (n : Z) (ds : Dataset) : M Dataset :=
  if streaming then take_rows n ds
  else raise (AttributeError "'Dataset' object has no attribute 'take'").

(** [train_data.shuffle(seed=seed, buffer_size=buffer_size)]: [buffer_size] is
    a keyword of [IterableDataset.shuffle]; [Dataset.shuffle] does not have
    it. *)
Definition shuffle_method (streaming : bool) (ds : Dataset) (seed buffer_size : Z) : M Dataset :=
  if streaming then
    _ ← emit (EvShuffle seed buffer_size);
    mret (shuffle w ds seed buffer_size)
  else raise (TypeError "Dataset.shuffle() got an unexpected keyword argument 'buffer_size'").

(** Lines 33-56 of [__call__]: the training rows fetched from the hub. *)
Definition hub_train_data (s : self) (name : string) : M Dataset :=
  _ ← emit (EvLoadDataset name "train" (Some (streaming (data_args s))));
  train_data ← lift_sum (load_dataset w name "train" (streaming (data_args s)));
  match max_train_samples (data_args s) with
  | Some n =>
      train_data ← take_method (streaming (data_args s)) n train_data;
      train_data ← from_list train_data;
      multi_trans train_data "en" "vi"
  | None =>
      en_2_vi ← dataset_map
                  {| mc_fn := FnA2B "en" "vi"; mc_batched := true;
                     mc_remove_columns := ["en"; "vi"]; mc_num_proc := None |}
                  (a_2_b "en" "vi") train_data;
      vi_2_en ← dataset_map
                  {| mc_fn := FnA2B "vi" "en"; mc_batched := true;
                     mc_remove_columns := ["en"; "vi"]; mc_num_proc := None |}
                  (a_2_b "vi" "en") train_data;
      _ ← emit (EvInterleave (seed s));
      let train_data := interleave_datasets w [en_2_vi; vi_2_en] (seed s) in
      shuffle_method (streaming (data_args s)) train_data (seed s) 10000
  end.

(** Lines 22-57 of [__call__]: the train set. *)
Definition call_train (s : self) (dataset : gmap string Dataset) : M (gmap string Dataset) :=
  match train_dir (data_args s), data_name (data_args s) with
  | Some dir, None =>
      train_data ← load_data s dir "train";
      train_data ← match max_train_samples (data_args s) with
                   | Some n => select_method train_data n
                   | None => mret train_data
                   end;
      processed ← process_fn s train_data;
      mret (<["train" := processed]> dataset)
  | _, _ =>
      match dataset_name_train (data_args s) with
      | Some name =>
          train_data ← hub_train_data s name;
          processed ← process_fn s (Some train_data);
          mret (<["train" := processed]> dataset)
      | None => mret dataset
      end
  end.

(** Lines 59-74 of [__call__]: the validation set. *)
Definition call_validation (s : self) (dataset : gmap string Dataset) : M (gmap string Dataset) :=
  match valid_dir (data_args s) with
  | Some dir =>
      valid_data ← load_data s dir "validation";
      valid_data ← match max_valid_samples (data_args s) with
                   | Some n => select_method valid_data n
                   | None => mret valid_data
                   end;
      processed ← process_fn s valid_data;
      mret (<["validation" := processed]> dataset)
  | None =>
      match dataset_name_validation (data_args s) with
      | Some name =>
          _ ← emit (EvLoadDataset name "validation" None);
          valid_data ← lift_sum (load_dataset w name "validation" false);
          valid_data ← multi_trans valid_data "en" "vi";
          processed ← process_fn s (Some valid_data);
          mret (<["validation" := processed]> dataset)
      | None => mret dataset
      end
  end.

(** [__call__(self)]. *)
Definition __call__ (s : self) : M (gmap string Dataset) :=
  let dataset : gmap string Dataset := ∅ in
  dataset ← call_train s dataset;
  dataset ← call_validation s dataset;
  mret dataset.

End WithWorld.

End Processor.

(** ** Argument groups of training.py

    Of each group, the attributes that decide the control flow of [main] or
    reach a recorded call.  The others ([cache_dir], [lora_r], ...) are only
    passed on to library constructors. *)

Record ModelArguments : Type := {
  config_name : option string;
  model_name_or_path : option string;
  model_type : option string;
  config_overrides : option string;
  tokenizer_name : option string;
  quantize : bool
}.

(** The attributes of [Seq2SeqTrainingArguments] that [main] reads. *)
Record TrainingArguments : Type := {
  should_log : bool;
  output_dir : string;
  do_train : bool;
  overwrite_output_dir : bool;
  resume_from_checkpoint : option string;
  training_seed : Z;
  gradient_checkpointing : bool;
  per_device_train_batch_size : Z
}.

Record LoraArguments : Type := {
  use_lora : bool;
  target_modules : option string;
  att_blocks : bool;
  use_int8_training : bool
}.

Record Arguments : Type := {
  model_args : ModelArguments;
  data_args : DataTrainingArguments;
  training_args : TrainingArguments;
  lora_args : LoraArguments
}.

(** ** Python operators used by [main] *)

(** Truth value of an [Optional[str]]: [None] and the empty string are false. *)
Definition truthy (s : option string) : bool :=
  match s with
  | Some s => negb (String.eqb s "")
  | None => false
  end.

(** [a or b] on strings: the first operand unless it is empty. *)
Definition str_or (a b : string) : string :=
  if String.eqb a "" then b else a.

(** [sub in s] on strings: substring test. *)
Fixpoint str_in (sub s : string) : bool :=
  if String.prefix sub s then true
  else match s with
       | EmptyString => false
       | String _ s' => str_in sub s'
       end.

(** [sub in x] where [x] may be [None]. *)
Definition in_operator (sub : string) (x : option string) : M bool :=
  match x with
  | Some s => mret (str_in sub s)
  | None => raise (TypeError "argument of type 'NoneType' is not iterable")
  end.

(** Reading a local variable that may not have been assigned. *)
Definition read_local {A} (name : string) (v : option A) : M A :=
  match v with
  | Some a => mret a
  | None => raise (UnboundLocalError name)
  end.

(** The models [main] handles, as the calls that built them. *)
Inductive Model : Type :=
| Pretrained (cls : ModelClass) (name : string) (quantized : bool)
| Int8Prepared (base : Model)
| Peft (base : Model) (target_modules : list string).

(** The local variables of [main] that outlive the statement assigning them
    and are read later.  [model] is assigned on one path only. *)
Record Locals : Type := {
  l_tokenizer : Tokenizer;
  l_base_model : Model;
  l_model : option Model
}.

Definition target_module_dict : gmap string (list string) :=
  <["T5" := ["v"; "q"; "k"; "wi"; "wo"; "o"; "lm_head"] ]>
  {["mT5" := ["q"; "wi_1"; "k"; "wi_0"; "v"; "wo"; "o"; "lm_head"] ]}.

Definition target_att_dict : gmap string (list string) :=
  {["T5" := ["v"; "q"; "k"; "o"] ]}.

(** ** [main] of training.py *)

Section Main.
Variable w : World.

(** A library call: recorded, then it raises or not as the world has it. *)
Definition call (ev : Event) : M unit :=
  _ ← emit ev;
  match fails w ev with
  | Some e => raise e
  | None => mret tt
  end.

(** Lines 75-88: detecting the last checkpoint. *)
Definition detect_last_checkpoint (targs : TrainingArguments) : M (option string) :=
  let last_checkpoint : option string := None in
  if isdir w (output_dir targs) && do_train targs && negb (overwrite_output_dir targs) then
    _ ← emit (EvGetLastCheckpoint (output_dir targs));
    let last_checkpoint := get_last_checkpoint w (output_dir targs) in
    if bool_decide (last_checkpoint = None) && (0 <? length (listdir w (output_dir targs)))%nat then
      raise (ValueError ("Output directory (" +:+ output_dir targs +:+
                         ") already exists and is not empty. Use --overwrite_output_dir to overcome."))
    else if bool_decide (last_checkpoint ≠ None)
            && bool_decide (resume_from_checkpoint targs = None) then
      _ ← emit (EvLoggerInfo ("Checkpoint detected, resuming training at "
                              +:+ default "" last_checkpoint
                              +:+ ". To avoid this behavior, change the `--output_dir` or add `--overwrite_output_dir` to train from scratch."));
      mret last_checkpoint
    else mret last_checkpoint
  else mret last_checkpoint.

(** Lines 94-109: the config. *)
Definition load_config (margs : ModelArguments) : M unit :=
  if truthy (config_name margs) then
    call (EvAutoConfig (default "" (config_name margs)))
  else if truthy (model_name_or_path margs) then
    call (EvAutoConfig (default "" (model_name_or_path margs)))
  else
    _ ← call (EvConfigMapping (model_type margs));
    _ ← emit (EvLoggerWarning "You are instantiating a new config instance from scratch.");
    match config_overrides margs with
    | Some overrides =>
        _ ← emit (EvLoggerInfo ("Overriding config: " +:+ overrides));
        _ ← call (EvConfigUpdate overrides);
        emit (EvLoggerInfo "New config")
    | None => mret tt
    end.

(** Lines 111-122: the tokenizer. *)
Definition load_tokenizer (margs : ModelArguments) : M Tokenizer :=
  tokenizer ←
    (if truthy (tokenizer_name margs) then
       _ ← call (EvAutoTokenizer (default "" (tokenizer_name margs)) false);
       mret (from_pretrained_tokenizer w (default "" (tokenizer_name margs)))
     else if truthy (model_name_or_path margs) then
       _ ← call (EvAutoTokenizer (default "" (model_name_or_path margs)) true);
       mret (from_pretrained_tokenizer w (default "" (model_name_or_path margs)))
     else
       raise (ValueError ("You are instantiating a new tokenizer from scratch. This is not supported by this script."
                          +:+ "You can do it from another script, save it, and load it from here, using --tokenizer_name.")));
  (* tokenizer.pad_token = tokenizer.eos_token; tokenizer.padding_side = 'right':
     from here on the tokenizer pads with the end-of-sequence id, on the right *)
  mret {| tokenizer_call := tokenizer_with_padding w tokenizer (eos_token_id tokenizer) "right";
          pad_token_id := eos_token_id tokenizer;
          eos_token_id := eos_token_id tokenizer;
          padding_side := "right" |}.

(** Lines 124-144: quantization config and base model. *)
Definition load_base_model (margs : ModelArguments) : M Model :=
  _ ← (if quantize margs then call EvBitsAndBytesConfig else mret tt);
  is_mt ← in_operator "mt" (model_name_or_path margs);
  let cls := if (is_mt : bool) then AutoModelForSeq2SeqLM else AutoModelForCausalLM in
  if truthy (model_name_or_path margs) then
    _ ← call (EvModelFromPretrained cls (default "" (model_name_or_path margs)) (quantize margs));
    mret (Pretrained cls (default "" (model_name_or_path margs)) (quantize margs))
  else
    (* raise NotImplemented: NotImplemented is not an exception *)
    raise (TypeError "exceptions must derive from BaseException").

(** Lines 158-165: the local [target_modules], assigned or not. *)
Definition select_target_modules (margs : ModelArguments) (largs : LoraArguments)
    : M (option (list string)) :=
  if truthy (target_modules largs) then
    if att_blocks largs then
      tm ← getitem target_att_dict "T5"; mret (Some tm)
    else
      is_mt5 ← in_operator (str_or "mt5" "flan-t5") (model_name_or_path margs);
      if (is_mt5 : bool) then
        tm ← getitem target_module_dict "mT5"; mret (Some tm)
      else
        is_t5 ← in_operator "t5" (model_name_or_path margs);
        if (is_t5 : bool) then
          tm ← getitem target_module_dict "T5"; mret (Some tm)
        else mret None
  else mret None.

(** Lines 147-186: the LoRA branch.  Returns the local [model], which no
    other statement of [main] assigns. *)
Definition load_peft_model (margs : ModelArguments) (targs : TrainingArguments)
    (largs : LoraArguments) (base_model : Model) : M (Model * option Model) :=
  if use_lora largs then
    _ ← (if negb (gradient_checkpointing targs) then mret tt
         else raise (AssertionError "Can not use gradients_checkpointing with LoRA"));
    target_modules ← select_target_modules margs largs;
    (* LoraConfig(r=..., target_modules=target_modules, ...) *)
    tm ← read_local "target_modules" target_modules;
    _ ← call (EvLoraConfig tm);
    base_model ← (if use_int8_training largs then
                    _ ← call EvPrepareInt8; mret (Int8Prepared base_model)
                  else mret base_model);
    _ ← call EvGetPeftModel;
    let model := Peft base_model tm in
    _ ← emit (EvPrint "--------------------------------------------------");
    _ ← call EvPrintTrainable;
    _ ← emit (EvPrint "--------------------------------------------------");
    mret (base_model, Some model)
  else mret (base_model, None).

(** Lines 68-186: everything before the data is prepared. *)
Definition main_setup (a : Arguments) : M Locals :=
  _ ← (if should_log (training_args a) then emit EvSetVerbosityInfo else mret tt);
  _ ← emit EvSetLevel;
  last_checkpoint ← detect_last_checkpoint (training_args a);
  _ ← call (EvSetSeed (training_seed (training_args a)));
  _ ← load_config (model_args a);
  tokenizer ← load_tokenizer (model_args a);
  base_model ← load_base_model (model_args a);
  '(base_model, model) ← load_peft_model (model_args a) (training_args a) (lora_args a) base_model;
  mret {| l_tokenizer := tokenizer; l_base_model := base_model; l_model := model |}.

(** Lines 188-190: [Processor(tokenizer, batch_size, data_args).__call__()];
    three arguments are passed. *)
Definition main_processor (a : Arguments) (l : Locals) : M (gmap string Dataset) :=
  let processor_fn := Processor.__init__ in
  p ← processor_fn (l_tokenizer l) (per_device_train_batch_size (training_args a)) (data_args a) None;
  Processor.__call__ w p.

(** Lines 192-223: collator, trainer, training, saving.  The keyword
    arguments of the trainer are evaluated left to right: [model],
    [training_args], [data_collator], [processor["train"]],
    [processor["validation"]].  Lines 213-217 only set attributes of the
    trainer and of the model configuration.  Line 223 is
    [trainer.model.save_pretrained()]: [save_directory] is a required
    positional argument of [save_pretrained], of a transformers model and of a
    peft model alike, so the call raises [TypeError] before anything is
    written. *)
Definition main_train (a : Arguments) (l : Locals) (processor : gmap string Dataset) : M unit :=
  _ ← call (EvDataCollator 8);
  model ← read_local "model" (l_model l);
  train_dataset ← getitem processor "train";
  eval_dataset ← getitem processor "validation";
  _ ← call EvTrainer;
  _ ← call EvTrain;
  raise (TypeError "save_pretrained() missing 1 required positional argument: 'save_directory'").

(** [main()], after the four argument groups have been parsed (lines 60-66). *)
Definition main (a : Arguments) : M unit :=
  l ← main_setup a;
  processor ← main_processor a l;
  main_train a l processor.

End Main.

(** ** Concrete inputs

    A small tokenizer, two worlds and a few argument groups, used to run the
    definitions above. *)

Module Sample.

(** A character-level tokenizer: one id per character (its code), cut and
    padded to [max_length] when one is given. *)
Definition char_ids (s : string) : list Z :=
  map (fun c => Z.of_nat (Ascii.nat_of_ascii c)) (String.list_ascii_of_string s).

Definition char_call (pad : Z) (inp : TokInput) (max_length : option Z)
    (padding : string) (truncation : bool) : Exn + Encoding :=
  match (match inp with Text x => x | TextTarget x => x end) with
  | VIds _ => inl (ValueError "text input must be of type `str`")
  | VText s =>
      match max_length with
      | None => inr (<["attention_mask" := map (fun _ => 1%Z) (char_ids s)]>
                     {["input_ids" := char_ids s]})
      | Some L =>
          if (L <? 0)%Z then inl (ValueError "max_length must be non-negative")
          else
            let n := Z.to_nat L in
            let kept := take n (char_ids s) in
            inr (<["attention_mask" := map (fun _ => 1%Z) kept ++ replicate (n - length kept) 0%Z]>
                 {["input_ids" := kept ++ replicate (n - length kept) pad]})
      end
  end.

Definition char_tokenizer (pad : Z) : Tokenizer :=
  {| tokenizer_call := char_call pad;
     pad_token_id := Some pad;
     eos_token_id := Some pad;
     padding_side := "right" |}.

(** The same tokenizer padding on the left. *)
Definition char_call_left (pad : Z) (inp : TokInput) (max_length : option Z)
    (padding : string) (truncation : bool) : Exn + Encoding :=
  match (match inp with Text x => x | TextTarget x => x end) with
  | VIds _ => inl (ValueError "text input must be of type `str`")
  | VText s =>
      match max_length with
      | None => inr (<["attention_mask" := map (fun _ => 1%Z) (char_ids s)]>
                     {["input_ids" := char_ids s]})
      | Some L =>
          if (L <? 0)%Z then inl (ValueError "max_length must be non-negative")
          else
            let n := Z.to_nat L in
            let kept := take n (char_ids s) in
            inr (<["attention_mask" := replicate (n - length kept) 0%Z ++ map (fun _ => 1%Z) kept]>
                 {["input_ids" := replicate (n - length kept) pad ++ kept]})
      end
  end.

(** How the character-level tokenizer encodes once a pad id and a side are
    assigned to it; without a pad token it cannot pad. *)
Definition sample_padding (tok : Tokenizer) (pad : option Z) (side : string)
    : TokInput -> option Z -> string -> bool -> Exn + Encoding :=
  match pad with
  | Some p => if bool_decide (side = "left") then char_call_left p else char_call p
  | None => fun _ _ _ _ =>
      inl (ValueError "Asking to pad but the tokenizer does not have a padding token.")
  end.

Definition dargs_local : DataTrainingArguments :=
  {| train_dir := Some "data"; valid_dir := Some "data"; data_name := None;
     dataset_name_train := None; dataset_name_validation := None;
     max_train_samples := None; max_valid_samples := None;
     streaming := false; max_len := Some 4%Z; dataset_num_workers := Some 2%Z |}.

Definition dargs_streaming : DataTrainingArguments :=
  {| train_dir := None; valid_dir := None; data_name := None;
     dataset_name_train := Some "hub/en-vi"; dataset_name_validation := None;
     max_train_samples := None; max_valid_samples := None;
     streaming := true; max_len := Some 4%Z; dataset_num_workers := Some 2%Z |}.

Definition dargs_capped : DataTrainingArguments :=
  {| train_dir := None; valid_dir := None; data_name := None;
     dataset_name_train := Some "hub/en-vi"; dataset_name_validation := None;
     max_train_samples := Some 1%Z; max_valid_samples := None;
     streaming := true; max_len := Some 4%Z; dataset_num_workers := None |}.

Definition processor (dargs : DataTrainingArguments) : Processor.self :=
  {| Processor.tokenizer := char_tokenizer 0;
     Processor.batch_size := 8;
     Processor.data_args := dargs;
     Processor.seed := 42 |}.

Definition example_hi : Row := <["targets" := VText "xin"]> {["inputs" := VText "hi"]}.

(** What [group_fn] makes of [example_hi] with pad id 0 and length 4. *)
Definition encoded_hi : Encoding :=
  <["labels" := [120; 105; 110; -100]%Z]>
  (<["attention_mask" := [1; 1; 0; 0]%Z]> {["input_ids" := [104; 105; 0; 0]%Z]}).

Definition bilingual (en vi : string) : Row := <["vi" := VText vi]> {["en" := VText en]}.

Definition hub_rows : Dataset := [bilingual "a" "b"; bilingual "c" "d"].

(** Round-robin interleaving and the identity shuffle stand for the two
    library calls in the sample worlds. *)
Fixpoint round_robin (a b : Dataset) : Dataset :=
  match a, b with
  | x :: a', y :: b' => x :: y :: round_robin a' b'
  | _, _ => []
  end.

Definition sample_interleave (ds : list Dataset) (seed : Z) : Dataset :=
  match ds with
  | [a; b] => round_robin a b
  | _ => concat ds
  end.

(** A world in which the data directory holds both splits, the output
    directory does not exist yet, and no library call raises. *)
Definition world_ok : World :=
  {| path_exists := fun _ => true;
     isdir := fun _ => false;
     listdir := fun _ => [];
     get_last_checkpoint := fun _ => None;
     load_from_disk := fun _ => inr (<["validation" := [example_hi]]> {["train" := [example_hi; example_hi] ]});
     load_dataset := fun _ _ _ => inr hub_rows;
     interleave_datasets := sample_interleave;
     shuffle := fun ds _ _ => ds;
     from_pretrained_tokenizer := fun _ => char_tokenizer 0;
     tokenizer_with_padding := sample_padding;
     fails := fun _ => None |}.

(** The same world, except that reading the dataset directory raises. *)
Definition world_bad_disk : World :=
  {| path_exists := fun _ => true;
     isdir := fun _ => false;
     listdir := fun _ => [];
     get_last_checkpoint := fun _ => None;
     load_from_disk := fun _ => inl (LibraryError "not a dataset directory");
     load_dataset := fun _ _ _ => inr hub_rows;
     interleave_datasets := sample_interleave;
     shuffle := fun ds _ _ => ds;
     from_pretrained_tokenizer := fun _ => char_tokenizer 0;
     tokenizer_with_padding := sample_padding;
     fails := fun _ => None |}.

(** The output directory exists and holds a checkpoint. *)
Definition world_checkpoint : World :=
  {| path_exists := fun _ => true;
     isdir := fun _ => true;
     listdir := fun _ => ["checkpoint-500"];
     get_last_checkpoint := fun d => Some (d +:+ "/checkpoint-500");
     load_from_disk := fun _ => inr (<["validation" := [example_hi]]> {["train" := [example_hi; example_hi] ]});
     load_dataset := fun _ _ _ => inr hub_rows;
     interleave_datasets := sample_interleave;
     shuffle := fun ds _ _ => ds;
     from_pretrained_tokenizer := fun _ => char_tokenizer 0;
     tokenizer_with_padding := sample_padding;
     fails := fun _ => None |}.

(** The output directory exists, is not empty and holds no checkpoint. *)
Definition world_dirty : World :=
  {| path_exists := fun _ => true;
     isdir := fun _ => true;
     listdir := fun _ => ["notes.txt"];
     get_last_checkpoint := fun _ => None;
     load_from_disk := fun _ => inr (<["validation" := [example_hi]]> {["train" := [example_hi; example_hi] ]});
     load_dataset := fun _ _ _ => inr hub_rows;
     interleave_datasets := sample_interleave;
     shuffle := fun ds _ _ => ds;
     from_pretrained_tokenizer := fun _ => char_tokenizer 0;
     tokenizer_with_padding := sample_padding;
     fails := fun _ => None |}.

Definition margs (name : string) : ModelArguments :=
  {| config_name := None; model_name_or_path := Some name; model_type := None;
     config_overrides := None; tokenizer_name := None;
     quantize := false |}.

Definition targs : TrainingArguments :=
  {| should_log := true; output_dir := "out"; do_train := true;
     overwrite_output_dir := false; resume_from_checkpoint := None;
     training_seed := 42; gradient_checkpointing := false;
     per_device_train_batch_size := 8 |}.

Definition largs (enabled : bool) : LoraArguments :=
  {| use_lora := enabled; target_modules := Some "q,v";
     att_blocks := false; use_int8_training := false |}.

(** A configuration with nothing wrong in it: an mT5 checkpoint, LoRA on,
    local train and validation data. *)
Definition args_valid : Arguments :=
  {| model_args := margs "google/mt5-small"; data_args := dargs_local;
     training_args := targs; lora_args := largs true |}.

(** The same without LoRA and without a validation source. *)
Definition args_no_lora_no_validation : Arguments :=
  {| model_args := margs "google/mt5-small";
     data_args := {| train_dir := Some "data"; valid_dir := None; data_name := None;
                     dataset_name_train := None; dataset_name_validation := None;
                     max_train_samples := None; max_valid_samples := None;
                     streaming := false; max_len := Some 4%Z;
                     dataset_num_workers := None |};
     training_args := targs; lora_args := largs false |}.

(** A valid configuration but for the validation source, which is missing. *)
Definition args_no_validation : Arguments :=
  {| model_args := margs "google/mt5-small";
     data_args := {| train_dir := Some "data"; valid_dir := None; data_name := None;
                     dataset_name_train := None; dataset_name_validation := None;
                     max_train_samples := None; max_valid_samples := None;
                     streaming := false; max_len := Some 4%Z;
                     dataset_num_workers := None |};
     training_args := targs; lora_args := largs true |}.

(** LoRA requested for a model family the table does not know. *)
Definition args_unknown_family : Arguments :=
  {| model_args := margs "facebook/bart-base"; data_args := dargs_local;
     training_args := targs; lora_args := largs true |}.

(** Local variables of [main] after the set-up, with [model] bound or not,
    and two results of the data processor. *)
Definition locals (model : option Model) : Locals :=
  {| l_tokenizer := char_tokenizer 0;
     l_base_model := Pretrained AutoModelForSeq2SeqLM "google/mt5-small" false;
     l_model := model |}.

Definition peft_model : Model :=
  Peft (Pretrained AutoModelForSeq2SeqLM "google/mt5-small" false)
       ["q"; "wi_1"; "k"; "wi_0"; "v"; "wo"; "o"; "lm_head"].

Definition train_only : gmap string Dataset := {["train" := [VIds <$> encoded_hi] ]}.

Definition both_splits : gmap string Dataset :=
  <["validation" := [VIds <$> encoded_hi]]> {["train" := [VIds <$> encoded_hi] ]}.

End Sample.

(** ** The rest of training.py *)

(** [_mp_fn(index)], the entry point for xla_spawn: it calls [main()] and does
    nothing with the index. *)
Definition _mp_fn (w : World) (index : Z) (a : Arguments) : M unit :=
  main w a.

(** A parameter of a torch module, as [print_trainable_parameters] reads it:
    [param.numel()] and [param.requires_grad]. *)
Record TorchParameter : Type := {
  numel : nat;
  requires_grad : bool
}.

(** What a call of [print_trainable_parameters] comes to: the message is
    printed, built from the two counters (and from their quotient
    [100 * trainable_params / all_param], whose rendering as a float is not
    modelled), or the division raises. *)
Inductive PrintOutcome : Type :=
| Printed (trainable_params all_param : nat)
| ZeroDivisionError.

(** The loop of [print_trainable_parameters] (lines 48-53): the state is the
    pair [(trainable_params, all_param)]. *)
Definition count_parameters (named_parameters : list (string * TorchParameter)) : nat * nat :=
  fold_left
    (fun '(trainable_params, all_param) '(_, param) =>
       let all_param := all_param + numel param in
       if requires_grad param then (trainable_params + numel param, all_param)
       else (trainable_params, all_param))
    named_parameters (0, 0).

(** [print_trainable_parameters(model)], on [model.named_parameters()]. *)
Definition print_trainable_parameters (named_parameters : list (string * TorchParameter))
    : PrintOutcome :=
  let '(trainable_params, all_param) := count_parameters named_parameters in
  if (all_param =? 0)%nat then ZeroDivisionError
  else Printed trainable_params all_param.

(** ** More concrete inputs *)

Module Sample2.

(** A row that has no text to translate from. *)
Definition row_without_inputs : Row := {["targets" := VText "xin"]}.

(** A row with a column besides the two that are tokenized. *)
Definition example_with_id : Row := <["id" := VText "7"]> Sample.example_hi.

(** The data directory holds a train split only. *)
Definition world_train_only : World :=
  {| path_exists := fun _ => true;
     isdir := fun _ => false;
     listdir := fun _ => [];
     get_last_checkpoint := fun _ => None;
     load_from_disk := fun _ => inr {["train" := [Sample.example_hi; Sample.example_hi] ]};
     load_dataset := fun _ _ _ => inr Sample.hub_rows;
     interleave_datasets := Sample.sample_interleave;
     shuffle := fun ds _ _ => ds;
     from_pretrained_tokenizer := fun _ => Sample.char_tokenizer 0;
     tokenizer_with_padding := Sample.sample_padding;
     fails := fun _ => None |}.

(** Local data with a cap on the training rows. *)
Definition dargs_local_capped (n : Z) : DataTrainingArguments :=
  {| train_dir := Some "data"; valid_dir := Some "data"; data_name := None;
     dataset_name_train := None; dataset_name_validation := None;
     max_train_samples := Some n; max_valid_samples := None;
     streaming := false; max_len := Some 4%Z; dataset_num_workers := Some 2%Z |}.

(** [train_dir] and [data_name] both given, no hub dataset named. *)
Definition dargs_data_name : DataTrainingArguments :=
  {| train_dir := Some "data"; valid_dir := None; data_name := Some "en-vi";
     dataset_name_train := None; dataset_name_validation := None;
     max_train_samples := None; max_valid_samples := None;
     streaming := false; max_len := Some 4%Z; dataset_num_workers := None |}.

(** Validation data from the hub. *)
Definition dargs_hub_validation (cap : option Z) : DataTrainingArguments :=
  {| train_dir := None; valid_dir := None; data_name := None;
     dataset_name_train := None; dataset_name_validation := Some "hub/en-vi";
     max_train_samples := None; max_valid_samples := cap;
     streaming := false; max_len := Some 4%Z; dataset_num_workers := None |}.

(** Training data streamed from the hub, with a cap. *)
Definition dargs_hub_capped (n : Z) : DataTrainingArguments :=
  {| train_dir := None; valid_dir := None; data_name := None;
     dataset_name_train := Some "hub/en-vi"; dataset_name_validation := None;
     max_train_samples := Some n; max_valid_samples := None;
     streaming := true; max_len := Some 4%Z; dataset_num_workers := None |}.


(** The train directory is there, the validation directory is not. *)
Definition world_no_validation_dir : World :=
  {| path_exists := fun p => bool_decide (p = "data");
     isdir := fun _ => false;
     listdir := fun _ => [];
     get_last_checkpoint := fun _ => None;
     load_from_disk := fun _ => inr {["train" := [Sample.example_hi] ]};
     load_dataset := fun _ _ _ => inr Sample.hub_rows;
     interleave_datasets := Sample.sample_interleave;
     shuffle := fun ds _ _ => ds;
     from_pretrained_tokenizer := fun _ => Sample.char_tokenizer 0;
     tokenizer_with_padding := Sample.sample_padding;
     fails := fun _ => None |}.

(** The train directory holds a dataset, the validation directory holds
    something that cannot be loaded. *)
Definition world_bad_validation_dir : World :=
  {| path_exists := fun _ => true;
     isdir := fun _ => false;
     listdir := fun _ => [];
     get_last_checkpoint := fun _ => None;
     load_from_disk := fun p =>
       if bool_decide (p = "data") then inr {["train" := [Sample.example_hi] ]}
       else inl (LibraryError "not a dataset directory");
     load_dataset := fun _ _ _ => inr Sample.hub_rows;
     interleave_datasets := Sample.sample_interleave;
     shuffle := fun ds _ _ => ds;
     from_pretrained_tokenizer := fun _ => Sample.char_tokenizer 0;
     tokenizer_with_padding := Sample.sample_padding;
     fails := fun _ => None |}.

Definition dargs_valid_dir (dir : string) : DataTrainingArguments :=
  {| train_dir := Some "data"; valid_dir := Some dir; data_name := None;
     dataset_name_train := None; dataset_name_validation := None;
     max_train_samples := None; max_valid_samples := None;
     streaming := false; max_len := Some 4%Z; dataset_num_workers := None |}.

(** Neither a tokenizer nor a model is named. *)
Definition margs_nothing : ModelArguments :=
  {| config_name := Some "google/mt5-small"; model_name_or_path := None;
     model_type := None; config_overrides := None; tokenizer_name := None;
     quantize := false |}.

(** A tokenizer is named, a model is not. *)
Definition margs_tokenizer_only : ModelArguments :=
  {| config_name := Some "google/mt5-small"; model_name_or_path := None;
     model_type := None; config_overrides := None;
     tokenizer_name := Some "google/mt5-small"; quantize := false |}.

Definition args_with (margs : ModelArguments) (largs : LoraArguments)
    (gradient : bool) : Arguments :=
  {| model_args := margs; data_args := Sample.dargs_local;
     training_args :=
       {| should_log := true; output_dir := "out"; do_train := true;
          overwrite_output_dir := false; resume_from_checkpoint := None;
          training_seed := 42; gradient_checkpointing := gradient;
          per_device_train_batch_size := 8 |};
     lora_args := largs |}.

(** A pretrained tokenizer whose padding id differs from its end-of-sequence
    id and which pads on the left, before [main] touches it. *)
Definition tokenizer_pad0_eos1 : Tokenizer :=
  {| tokenizer_call := Sample.char_call_left 0;
     pad_token_id := Some 0%Z;
     eos_token_id := Some 1%Z;
     padding_side := "left" |}.

Definition world_pad0_eos1 : World :=
  {| path_exists := fun _ => true;
     isdir := fun _ => false;
     listdir := fun _ => [];
     get_last_checkpoint := fun _ => None;
     load_from_disk := fun _ => inr {["train" := [Sample.example_hi] ]};
     load_dataset := fun _ _ _ => inr Sample.hub_rows;
     interleave_datasets := Sample.sample_interleave;
     shuffle := fun ds _ _ => ds;
     from_pretrained_tokenizer := fun _ => tokenizer_pad0_eos1;
     tokenizer_with_padding := Sample.sample_padding;
     fails := fun _ => None |}.

(** A small model: one frozen weight matrix and two trainable adapters. *)
Definition adapter_parameters : list (string * TorchParameter) :=
  [("encoder.q.weight", {| numel := 512; requires_grad := false |});
   ("encoder.q.lora_A", {| numel := 32; requires_grad := true |});
   ("encoder.q.lora_B", {| numel := 32; requires_grad := true |})].

End Sample2.

(** * Properties *)

(** ** The monad *)

Lemma bind_Return {A B} (f : A -> M B) (t : list Event) (a : A) :
  (t, Return a) ≫= f = (t ++ (f a).1, (f a).2).
Proof. unfold mbind, M_bind. destruct (f a); reflexivity. Qed.

Lemma bind_mret {A B} (f : A -> M B) (a : A) : mret a ≫= f = f a.
Proof. unfold mret, M_ret. rewrite bind_Return. by destruct (f a). Qed.

Lemma bind_Raise {A B} (f : A -> M B) (t : list Event) (e : Exn) :
  (t, Raise e) ≫= f = (t, Raise e).
Proof. reflexivity. Qed.

Lemma bind_inv_Return {A B} (m : M A) (f : A -> M B) (t : list Event) (b : B) :
  m ≫= f = (t, Return b) ->
  exists t1 a t2, m = (t1, Return a) /\ f a = (t2, Return b) /\ t = t1 ++ t2.
Proof.
  destruct m as [t1 [a|e]]; [|discriminate].
  rewrite bind_Return. destruct (f a) as [t2 o] eqn:Hf. simpl.
  intros [= <- ->]. eauto 6.
Qed.

Lemma bind_trace_prefix {A B} (m : M A) (f : A -> M B) :
  exists t2, (m ≫= f).1 = m.1 ++ t2.
Proof.
  destruct m as [t1 [a|e]].
  - rewrite bind_Return. eauto.
  - exists []. simpl. by rewrite app_nil_r.
Qed.

Lemma getitem_inv {V} (d : gmap string V) (key : string) t v :
  getitem d key = (t, Return v) -> d !! key = Some v /\ t = [].
Proof. unfold getitem. destruct (d !! key); [|discriminate]. by intros [= <- <-]. Qed.

Lemma lift_sum_inv {A} (r : Exn + A) t a :
  lift_sum r = (t, Return a) -> r = inr a /\ t = [].
Proof. destruct r; [discriminate|]. by intros [= <- <-]. Qed.

Lemma getitem_trace {V} (d : gmap string V) (key : string) : (getitem d key).1 = [].
Proof. unfold getitem. by destruct (d !! key). Qed.

Lemma lift_sum_trace {A} (r : Exn + A) : (lift_sum r).1 = [].
Proof. by destruct r. Qed.

(** A bind of two computations that record nothing records nothing. *)
Lemma bind_silent {A B} (m : M A) (f : A -> M B) :
  m.1 = [] -> (forall a, (f a).1 = []) -> (m ≫= f).1 = [].
Proof.
  destruct m as [t [a|e]]; intros Ht Hf; simpl in Ht; subst t; [|done].
  rewrite bind_Return. simpl. apply Hf.
Qed.

Lemma mapM_silent {A B} (f : A -> M B) (l : list A) :
  (forall a, (f a).1 = []) -> (mapM f l).1 = [].
Proof.
  intros Hf. induction l as [|x l IH]; [done|].
  simpl. apply bind_silent; [apply Hf|]. intros y.
  apply bind_silent; [apply IH|]. done.
Qed.

(** What [mapM] returns, row by row. *)
Lemma mapM_inv_Return {A B} (f : A -> M B) (l : list A) t (k : list B) :
  mapM f l = (t, Return k) ->
  Forall2 (fun a b => exists ta, f a = (ta, Return b)) l k.
Proof.
  revert t k. induction l as [|x l IH]; intros t k; simpl.
  - intros [= <- <-]. constructor.
  - intros H. apply bind_inv_Return in H as (t1 & y & t2 & Hx & H & ->).
    apply bind_inv_Return in H as (t3 & k' & t4 & Hl & H & ->).
    injection H as <- <-. constructor; eauto.
Qed.

(** ** Python operators *)

Example str_in_mt5 : str_in "mt5" "google/mt5-small" = true.
Proof. reflexivity. Qed.

Example str_in_flan_t5 :
  str_in (str_or "mt5" "flan-t5") "google/flan-t5-base" = false /\
  str_in "t5" "google/flan-t5-base" = true.
Proof. split; reflexivity. Qed.

Example str_in_bart : str_in "t5" "facebook/bart-base" = false.
Proof. reflexivity. Qed.

Example str_in_empty : str_in "" "" = true.
Proof. reflexivity. Qed.

(** ** Masking of padding in the labels *)

Section Masking.
Variable pad : option Z.

Lemma mask_pad_not_pad (l : Z) :
  pad ≠ Some Processor.ignore_index -> Some (Processor.mask_pad pad l) ≠ pad.
Proof.
  intros Hpad. unfold Processor.mask_pad, Processor.ne_pad.
  destruct pad as [p|]; [|done].
  destruct (Z.eqb_spec l p) as [->|Hne]; simpl; congruence.
Qed.

Lemma mask_pad_at_pad (p : Z) :
  pad = Some p -> Processor.mask_pad pad p = Processor.ignore_index.
Proof.
  intros ->. unfold Processor.mask_pad, Processor.ne_pad. by rewrite Z.eqb_refl.
Qed.


End Masking.

(** [group_fn] unfolded: what it returns is the encoding of the inputs with
    the masked ids of the encoding of the targets stored under [labels]. *)
Lemma group_fn_inv (s : Processor.self) (example : Row) t (out : Encoding) :
  Processor.group_fn s example = (t, Return out) ->
  exists x y enc_in enc_lab raw,
    example !! "inputs" = Some x /\ example !! "targets" = Some y /\
    tokenizer_call (Processor.tokenizer s) (Text x)
      (max_len (Processor.data_args s)) "max_length" true = inr enc_in /\
    tokenizer_call (Processor.tokenizer s) (TextTarget y)
      (max_len (Processor.data_args s)) "max_length" true = inr enc_lab /\
    enc_lab !! "input_ids" = Some raw /\
    out = <["labels" := map (Processor.mask_pad (pad_token_id (Processor.tokenizer s))) raw]> enc_in /\
    t = [].
Proof.
  unfold Processor.group_fn, Processor.tokenize_fn. simpl. intros H.
  apply bind_inv_Return in H as (t1 & x & t1' & Hx & H & ->).
  apply getitem_inv in Hx as [Hx ->].
  apply bind_inv_Return in H as (t2 & enc_in & t2' & Hin & H & ->).
  apply lift_sum_inv in Hin as [Hin ->].
  apply bind_inv_Return in H as (t3 & y & t3' & Hy & H & ->).
  apply getitem_inv in Hy as [Hy ->].
  apply bind_inv_Return in H as (t4 & enc_lab & t4' & Hlab & H & ->).
  apply lift_sum_inv in Hlab as [Hlab ->].
  apply bind_inv_Return in H as (t5 & raw & t5' & Hraw & H & ->).
  apply getitem_inv in Hraw as [Hraw ->].
  apply bind_inv_Return in H as (t6 & lab & t6' & Hl & H & ->).
  apply getitem_inv in Hl as [Hl ->].
  rewrite lookup_insert_eq in Hl. injection Hl as <-.
  injection H as <- <-.
  exists x, y, enc_in, enc_lab, raw.
  destruct (max_len (Processor.data_args s)); auto 10.
Qed.

Lemma group_fn_trace (s : Processor.self) (example : Row) :
  (Processor.group_fn s example).1 = [].
Proof.
  unfold Processor.group_fn, Processor.tokenize_fn.
  repeat (apply bind_silent; [first [apply getitem_trace | simpl; apply lift_sum_trace]|intros ?]).
  done.
Qed.

(** [group_fn] returns as soon as the example has both columns and the
    tokenizer answers both calls with an encoding that has [input_ids]. *)
Lemma group_fn_returns (s : Processor.self) (example : Row) x y enc_in enc_lab raw :
  example !! "inputs" = Some x -> example !! "targets" = Some y ->
  tokenizer_call (Processor.tokenizer s) (Text x)
    (max_len (Processor.data_args s)) "max_length" true = inr enc_in ->
  tokenizer_call (Processor.tokenizer s) (TextTarget y)
    (max_len (Processor.data_args s)) "max_length" true = inr enc_lab ->
  enc_lab !! "input_ids" = Some raw ->
  Processor.group_fn s example =
    ([], Return (<["labels" := map (Processor.mask_pad (pad_token_id (Processor.tokenizer s))) raw]> enc_in)).
Proof.
  intros Hx Hy Hin Hlab Hraw.
  unfold Processor.group_fn, Processor.tokenize_fn, getitem. simpl.
  replace (match max_len (Processor.data_args s) with Some l => Some l | None => None end)
    with (max_len (Processor.data_args s)) by (by destruct (max_len _)).
  unfold lift_sum.
  rewrite Hx, bind_mret, Hin, bind_mret, Hy, bind_mret, Hlab.
  rewrite bind_mret, Hraw, bind_mret, lookup_insert_eq, bind_mret. reflexivity.
Qed.



(** ** Lengths *)

Lemma char_tokenizer_pads (pad : Z) : pads_to_max_length (Sample.char_tokenizer pad).
Proof.
  intros inp L enc. simpl. unfold Sample.char_call.
  destruct (match inp with Text x | TextTarget x => x end) as [txt|]; [|discriminate].
  destruct (Z.ltb_spec L 0); [discriminate|].
  intros [= <-]. eexists. split.
  - rewrite lookup_insert_ne by done. apply lookup_singleton_eq.
  - rewrite length_app, length_replicate, length_take. lia.
Qed.



(** ** Traces *)

Lemma bind_trace_Forall {A B} (P : Event -> Prop) (m : M A) (f : A -> M B) :
  Forall P m.1 -> (forall a, Forall P (f a).1) -> Forall P (m ≫= f).1.
Proof.
  destruct m as [t [a|e]]; intros Ht Hf; simpl in Ht; [|done].
  rewrite bind_Return. simpl. apply Forall_app. auto.
Qed.

Lemma silent_Forall {A} (P : Event -> Prop) (m : M A) : m.1 = [] -> Forall P m.1.
Proof. intros ->. constructor. Qed.

Lemma emit_bind_trace {B} (ev : Event) (f : unit -> M B) :
  (emit ev ≫= f).1 = ev :: (f tt).1.
Proof. unfold emit. by rewrite bind_Return. Qed.

Lemma emit_bind_eq {B} (ev : Event) (f : unit -> M B) :
  emit ev ≫= f = (ev :: (f tt).1, (f tt).2).
Proof. unfold emit. by rewrite bind_Return. Qed.

Lemma dataset_map_trace (call : MapCall) (fn : Row -> M Row) (ds : Dataset) :
  (forall row, (fn row).1 = []) -> (dataset_map call fn ds).1 = [EvMap call].
Proof.
  intros Hfn. unfold dataset_map. rewrite emit_bind_trace. f_equal.
  apply mapM_silent. intros row. apply bind_silent; [apply Hfn|done].
Qed.

Lemma group_row_trace (s : Processor.self) (example : Row) :
  (enc ← Processor.group_fn s example; mret (VIds <$> enc)).1 = [].
Proof. apply bind_silent; [apply group_fn_trace|done]. Qed.

Lemma a_2_b_trace (la lb : string) (row : Row) : (a_2_b la lb row).1 = [].
Proof.
  unfold a_2_b. repeat (apply bind_silent; [apply getitem_trace|intros ?]). done.
Qed.

(** The one thing [process_fn] records. *)
Lemma process_fn_trace (s : Processor.self) (ds : Dataset) :
  (Processor.process_fn s (Some ds)).1 =
  [EvMap {| mc_fn := FnGroup; mc_batched := false;
            mc_remove_columns := ["inputs"; "targets"];
            mc_num_proc := if streaming (Processor.data_args s) then None
                           else Some (dataset_num_workers (Processor.data_args s)) |}].
Proof.
  unfold Processor.process_fn, Processor.map_method.
  destruct (streaming (Processor.data_args s)); apply dataset_map_trace, group_row_trace.
Qed.

Lemma try_except_trace_Forall {A} (P : Event -> Prop) (body handler : M A) :
  Forall P body.1 -> Forall P handler.1 -> Forall P (try_except body handler).1.
Proof.
  destruct body as [t [a|e]], handler as [t' o]; simpl; intros Hb Hh; [done|].
  apply Forall_app. auto.
Qed.

Lemma mapM_trace_Forall {A B} (P : Event -> Prop) (f : A -> M B) (l : list A) :
  (forall a, Forall P (f a).1) -> Forall P (mapM f l).1.
Proof.
  intros Hf. induction l as [|x l IH]; [constructor|].
  simpl. apply bind_trace_Forall; [apply Hf|]. intros y.
  apply bind_trace_Forall; [apply IH|]. constructor.
Qed.

Lemma in_operator_trace (sub : string) (x : option string) : (in_operator sub x).1 = [].
Proof. by destruct x. Qed.

Lemma read_local_trace {A} (name : string) (v : option A) : (read_local name v).1 = [].
Proof. by destruct v. Qed.

(** One step of a proof that every recorded event satisfies a predicate:
    follow the structure of the computation. *)
Ltac trace_step :=
  match goal with
  | |- Forall _ (fst (mbind _ _)) => apply bind_trace_Forall; [|intros ?]
  | |- Forall _ (fst (try_except _ _)) => apply try_except_trace_Forall
  | |- Forall _ (fst (mapM _ _)) => apply mapM_trace_Forall; intros ?
  | |- Forall _ (fst (mret _)) => by constructor
  | |- Forall _ (fst (raise _)) => by constructor
  | |- Forall _ (fst (getitem _ _)) => apply silent_Forall, getitem_trace
  | |- Forall _ (fst (lift_sum _)) => apply silent_Forall, lift_sum_trace
  | |- Forall _ (fst (in_operator _ _)) => apply silent_Forall, in_operator_trace
  | |- Forall _ (fst (read_local _ _)) => apply silent_Forall, read_local_trace
  | |- Forall _ (fst (Processor.group_fn _ _)) => apply silent_Forall, group_fn_trace
  | |- Forall _ (fst (a_2_b _ _ _)) => apply silent_Forall, a_2_b_trace
  | |- Forall _ (fst (emit _)) => apply Forall_singleton
  | |- Forall _ (fst (if ?b then _ else _)) => is_var b; destruct b
  | |- Forall _ (fst (if ?b then _ else _)) => destruct b eqn:?
  | |- Forall _ (fst (match ?x with _ => _ end)) => is_var x; destruct x
  | |- Forall _ (fst (match ?x with _ => _ end)) => destruct x eqn:?
  end.

(** C8.  [process_fn] issues one [dataset.map] call; it carries
    [num_proc=dataset_num_workers] when streaming is off and no [num_proc]
    keyword at all when streaming is on.  Over a whole run of [__call__], no
    other map call carries a [num_proc] keyword either. *)
Theorem num_proc_only_without_streaming (w : World) (s : Processor.self) :
  (forall ds : Dataset,
     (Processor.process_fn s (Some ds)).1 =
     [EvMap {| mc_fn := FnGroup; mc_batched := false;
               mc_remove_columns := ["inputs"; "targets"];
               mc_num_proc := if streaming (Processor.data_args s) then None
                              else Some (dataset_num_workers (Processor.data_args s)) |}]) /\
  Forall (fun ev => forall call, ev = EvMap call ->
            match mc_num_proc call with
            | Some workers =>
                streaming (Processor.data_args s) = false /\
                workers = dataset_num_workers (Processor.data_args s) /\
                mc_fn call = FnGroup
            | None => True
            end)
         (Processor.__call__ w s).1.
Proof.
  split; [apply process_fn_trace|].
  assert (Hproc : forall d, Forall (fun ev => forall call, ev = EvMap call ->
            match mc_num_proc call with
            | Some workers =>
                streaming (Processor.data_args s) = false /\
                workers = dataset_num_workers (Processor.data_args s) /\
                mc_fn call = FnGroup
            | None => True
            end) (Processor.process_fn s d).1).
  { intros [ds|].
    - rewrite process_fn_trace. apply Forall_singleton. intros call [= <-]. simpl.
      by destruct (streaming (Processor.data_args s)).
    - unfold Processor.process_fn, Processor.map_method.
      destruct (streaming (Processor.data_args s)); constructor. }
  unfold Processor.__call__, Processor.call_train, Processor.call_validation,
    Processor.load_data, Processor.select_method, Processor.hub_train_data,
    Processor.take_method, Processor.shuffle_method,
    select_range, take_rows, from_list, multi_trans, dataset_map.
  repeat first
    [ apply Hproc
    | trace_step
    | by (intros call [= <-])
    | by (intros call [=]) ].
Qed.

(** ** Loading from disk *)

Lemma load_data_missing_path (w : World) (s : Processor.self) (path key : string) :
  path_exists w path = false ->
  Processor.load_data w s path key = ([], Raise (ValueError ("Not found " +:+ path +:+ " path."))).
Proof. intros H. unfold Processor.load_data. by rewrite H. Qed.

Lemma load_data_swallows (w : World) (s : Processor.self) (path key : string) (e : Exn) :
  path_exists w path = true ->
  load_from_disk w path = inl e ->
  Processor.load_data w s path key =
    ([EvLoadFromDisk path;
      EvLoggerInfo ("Error loading dataset " +:+ path);
      EvPrint ("Error loading dataset " +:+ path)], Return None).
Proof.
  intros Hp He. unfold Processor.load_data. rewrite Hp, He. simpl.
  by destruct (streaming (Processor.data_args s)).
Qed.

(** A split that is in no way on disk is swallowed the same way. *)
Lemma load_data_swallows_missing_split (w : World) (s : Processor.self)
    (path key : string) (dd : gmap string Dataset) :
  path_exists w path = true ->
  load_from_disk w path = inr dd ->
  dd !! key = None ->
  Processor.load_data w s path key =
    ([EvLoadFromDisk path;
      EvLoggerInfo ("Error loading dataset " +:+ path);
      EvPrint ("Error loading dataset " +:+ path)], Return None).
Proof.
  intros Hp Hdd Hkey. unfold Processor.load_data, getitem. rewrite Hp, Hdd. simpl.
  rewrite Hkey. by destruct (streaming (Processor.data_args s)).
Qed.

(** [process_fn] and [select] on the [None] that [load_data] handed back. *)
Lemma process_fn_None (s : Processor.self) :
  Processor.process_fn s None =
    ([], Raise (AttributeError "'NoneType' object has no attribute 'map'")).
Proof. unfold Processor.process_fn. by destruct (streaming (Processor.data_args s)). Qed.

(** The validation part of [__call__] on a directory that cannot be used. *)
Lemma call_validation_missing_path (w : World) (s : Processor.self) (path : string)
    (d : gmap string Dataset) :
  valid_dir (Processor.data_args s) = Some path ->
  path_exists w path = false ->
  Processor.call_validation w s d =
    ([], Raise (ValueError ("Not found " +:+ path +:+ " path."))).
Proof.
  intros Hdir Hp. unfold Processor.call_validation.
  by rewrite Hdir, (load_data_missing_path w s path "validation" Hp).
Qed.

Lemma call_validation_load_failure (w : World) (s : Processor.self) (path : string)
    (e : Exn) (d : gmap string Dataset) :
  valid_dir (Processor.data_args s) = Some path ->
  path_exists w path = true -> load_from_disk w path = inl e ->
  Processor.call_validation w s d =
    ([EvLoadFromDisk path;
      EvLoggerInfo ("Error loading dataset " +:+ path);
      EvPrint ("Error loading dataset " +:+ path)],
     Raise (AttributeError
              (match max_valid_samples (Processor.data_args s) with
               | Some _ => "'NoneType' object has no attribute 'select'"
               | None => "'NoneType' object has no attribute 'map'"
               end))).
Proof.
  intros Hdir Hp He. unfold Processor.call_validation.
  rewrite Hdir, (load_data_swallows w s path "validation" e Hp He).
  rewrite bind_Return. simpl.
  destruct (max_valid_samples (Processor.data_args s)); simpl; [done|].
  by rewrite process_fn_None.
Qed.

(** [__call__] is the train part followed by the validation part. *)
Lemma call_validation_raises (w : World) (s : Processor.self) (tv : list Event) (e : Exn) :
  (forall d, Processor.call_validation w s d = (tv, Raise e)) ->
  Processor.__call__ w s =
    match Processor.call_train w s ∅ with
    | (t, Return _) => (t ++ tv, Raise e)
    | (t, Raise e') => (t, Raise e')
    end.
Proof.
  intros Hval. unfold Processor.__call__.
  destruct (Processor.call_train w s ∅) as [t [d|e']]; [|reflexivity].
  rewrite bind_Return, Hval. reflexivity.
Qed.

(** C4, as the code has it.  A path that does not exist makes [load_data]
    raise [ValueError] at once, before any loading is tried, and [__call__]
    ends in that error: straight away for [train_dir], after the train part
    has run for [valid_dir].  When the path exists and [load_from_disk]
    raises, [load_data] catches the exception, logs and prints a message and
    returns [None].  Execution goes on in [__call__] with that [None]: the
    next statement calls [.select] or [.map] on it and raises
    [AttributeError], again straight away for [train_dir] and after the train
    part for [valid_dir].  In none of these cases does [__call__] return a
    dictionary. *)
Theorem load_data_failure_modes (w : World) (s : Processor.self) (path : string) :
  (forall key, path_exists w path = false ->
     Processor.load_data w s path key =
       ([], Raise (ValueError ("Not found " +:+ path +:+ " path.")))) /\
  (forall key e, path_exists w path = true -> load_from_disk w path = inl e ->
     Processor.load_data w s path key =
       ([EvLoadFromDisk path;
         EvLoggerInfo ("Error loading dataset " +:+ path);
         EvPrint ("Error loading dataset " +:+ path)], Return None)) /\
  (path_exists w path = false ->
     train_dir (Processor.data_args s) = Some path ->
     data_name (Processor.data_args s) = None ->
     Processor.__call__ w s =
       ([], Raise (ValueError ("Not found " +:+ path +:+ " path.")))) /\
  (forall e, path_exists w path = true -> load_from_disk w path = inl e ->
     train_dir (Processor.data_args s) = Some path ->
     data_name (Processor.data_args s) = None ->
     Processor.__call__ w s =
       ([EvLoadFromDisk path;
         EvLoggerInfo ("Error loading dataset " +:+ path);
         EvPrint ("Error loading dataset " +:+ path)],
        Raise (AttributeError
                 (match max_train_samples (Processor.data_args s) with
                  | Some _ => "'NoneType' object has no attribute 'select'"
                  | None => "'NoneType' object has no attribute 'map'"
                  end)))) /\
  (path_exists w path = false ->
     valid_dir (Processor.data_args s) = Some path ->
     (forall d, Processor.call_validation w s d =
        ([], Raise (ValueError ("Not found " +:+ path +:+ " path.")))) /\
     Processor.__call__ w s =
       match Processor.call_train w s ∅ with
       | (t, Return _) => (t, Raise (ValueError ("Not found " +:+ path +:+ " path.")))
       | (t, Raise e) => (t, Raise e)
       end) /\
  (forall e, path_exists w path = true -> load_from_disk w path = inl e ->
     valid_dir (Processor.data_args s) = Some path ->
     (forall d, Processor.call_validation w s d =
        ([EvLoadFromDisk path;
          EvLoggerInfo ("Error loading dataset " +:+ path);
          EvPrint ("Error loading dataset " +:+ path)],
         Raise (AttributeError
                  (match max_valid_samples (Processor.data_args s) with
                   | Some _ => "'NoneType' object has no attribute 'select'"
                   | None => "'NoneType' object has no attribute 'map'"
                   end)))) /\
     Processor.__call__ w s =
       match Processor.call_train w s ∅ with
       | (t, Return _) =>
           (t ++ [EvLoadFromDisk path;
                  EvLoggerInfo ("Error loading dataset " +:+ path);
                  EvPrint ("Error loading dataset " +:+ path)],
            Raise (AttributeError
                     (match max_valid_samples (Processor.data_args s) with
                      | Some _ => "'NoneType' object has no attribute 'select'"
                      | None => "'NoneType' object has no attribute 'map'"
                      end)))
       | (t, Raise e') => (t, Raise e')
       end) /\
  (path_exists w path = false \/ (exists e, load_from_disk w path = inl e) ->
   (train_dir (Processor.data_args s) = Some path /\ data_name (Processor.data_args s) = None)
   \/ valid_dir (Processor.data_args s) = Some path ->
   forall t d, Processor.__call__ w s ≠ (t, Return d)).
Proof.
  assert (Htrain_missing : path_exists w path = false ->
     train_dir (Processor.data_args s) = Some path ->
     data_name (Processor.data_args s) = None ->
     Processor.__call__ w s =
       ([], Raise (ValueError ("Not found " +:+ path +:+ " path.")))).
  { intros Hp Hdir Hname.
    unfold Processor.__call__, Processor.call_train.
    by rewrite Hdir, Hname, (load_data_missing_path w s path "train" Hp). }
  assert (Htrain_load : forall e, path_exists w path = true -> load_from_disk w path = inl e ->
     train_dir (Processor.data_args s) = Some path ->
     data_name (Processor.data_args s) = None ->
     Processor.__call__ w s =
       ([EvLoadFromDisk path;
         EvLoggerInfo ("Error loading dataset " +:+ path);
         EvPrint ("Error loading dataset " +:+ path)],
        Raise (AttributeError
                 (match max_train_samples (Processor.data_args s) with
                  | Some _ => "'NoneType' object has no attribute 'select'"
                  | None => "'NoneType' object has no attribute 'map'"
                  end)))).
  { intros e Hp He Hdir Hname.
    unfold Processor.__call__, Processor.call_train.
    rewrite Hdir, Hname, (load_data_swallows w s path "train" e Hp He).
    rewrite bind_Return. simpl.
    destruct (max_train_samples (Processor.data_args s)); simpl; [done|].
    by rewrite process_fn_None. }
  assert (Hvalid_missing : path_exists w path = false ->
     valid_dir (Processor.data_args s) = Some path ->
     Processor.__call__ w s =
       match Processor.call_train w s ∅ with
       | (t, Return _) => (t, Raise (ValueError ("Not found " +:+ path +:+ " path.")))
       | (t, Raise e) => (t, Raise e)
       end).
  { intros Hp Hdir.
    rewrite (call_validation_raises w s [] (ValueError ("Not found " +:+ path +:+ " path."))).
    - destruct (Processor.call_train w s ∅) as [t [d|e]]; [|done]. by rewrite app_nil_r.
    - intros d. by apply call_validation_missing_path. }
  split_and!.
  - intros key. apply load_data_missing_path.
  - intros key e. apply load_data_swallows.
  - exact Htrain_missing.
  - exact Htrain_load.
  - intros Hp Hdir. split; [|by apply Hvalid_missing].
    intros d. by apply call_validation_missing_path.
  - intros e Hp He Hdir. split.
    + intros d. by apply (call_validation_load_failure w s path e).
    + apply call_validation_raises. intros d.
      by apply (call_validation_load_failure w s path e).
  - intros Hbad Hsrc t d Hcall.
    destruct (path_exists w path) eqn:Hp.
    + destruct Hbad as [?|[e He]]; [done|].
      destruct Hsrc as [[Hdir Hname]|Hdir].
      * rewrite (Htrain_load e eq_refl He Hdir Hname) in Hcall. discriminate.
      * rewrite (call_validation_raises w s _ _
                   (fun d => call_validation_load_failure w s path e d Hdir Hp He)) in Hcall.
        destruct (Processor.call_train w s ∅) as [t' [d'|e']]; discriminate.
    + destruct Hsrc as [[Hdir Hname]|Hdir].
      * rewrite (Htrain_missing eq_refl Hdir Hname) in Hcall. discriminate.
      * rewrite (Hvalid_missing eq_refl Hdir) in Hcall.
        destruct (Processor.call_train w s ∅) as [t' [d'|e']]; discriminate.
Qed.

Lemma load_data_failure_modes_witness :
  (Processor.load_data Sample.world_bad_disk (Sample.processor Sample.dargs_local) "data" "train" =
     ([EvLoadFromDisk "data"; EvLoggerInfo "Error loading dataset data";
       EvPrint "Error loading dataset data"], Return None) /\
   Processor.__call__ Sample.world_bad_disk (Sample.processor Sample.dargs_local) =
     ([EvLoadFromDisk "data"; EvLoggerInfo "Error loading dataset data";
       EvPrint "Error loading dataset data"],
      Raise (AttributeError "'NoneType' object has no attribute 'map'"))) /\
  (Processor.__call__ Sample2.world_no_validation_dir
     (Sample.processor (Sample2.dargs_valid_dir "missing")) =
     ([EvLoadFromDisk "data";
       EvMap {| mc_fn := FnGroup; mc_batched := false;
                mc_remove_columns := ["inputs"; "targets"]; mc_num_proc := Some None |}],
      Raise (ValueError "Not found missing path."))) /\
  (Processor.__call__ Sample2.world_bad_validation_dir
     (Sample.processor (Sample2.dargs_valid_dir "broken")) =
     ([EvLoadFromDisk "data";
       EvMap {| mc_fn := FnGroup; mc_batched := false;
                mc_remove_columns := ["inputs"; "targets"]; mc_num_proc := Some None |};
       EvLoadFromDisk "broken"; EvLoggerInfo "Error loading dataset broken";
       EvPrint "Error loading dataset broken"],
      Raise (AttributeError "'NoneType' object has no attribute 'map'"))).
Proof.
  split; [|split].
  - destruct (load_data_failure_modes Sample.world_bad_disk
                (Sample.processor Sample.dargs_local) "data") as (_ & Hload & _ & Hcall & _).
    split.
    + apply (Hload "train" (LibraryError "not a dataset directory")); reflexivity.
    + apply (Hcall (LibraryError "not a dataset directory")); reflexivity.
  - destruct (load_data_failure_modes Sample2.world_no_validation_dir
                (Sample.processor (Sample2.dargs_valid_dir "missing")) "missing")
      as (_ & _ & _ & _ & Hmissing & _).
    destruct Hmissing as [_ ->]; [reflexivity|reflexivity|].
    vm_compute. reflexivity.
  - destruct (load_data_failure_modes Sample2.world_bad_validation_dir
                (Sample.processor (Sample2.dargs_valid_dir "broken")) "broken")
      as (_ & _ & _ & _ & _ & Hbroken & _).
    destruct (Hbroken (LibraryError "not a dataset directory")) as [_ ->];
      [reflexivity|reflexivity|reflexivity|].
    vm_compute. reflexivity.
Defined.

(** C4 as stated does not hold: with a data directory that exists and cannot
    be loaded, [__call__] does not go on to a result that lacks the split; it
    raises. *)
Lemma load_failure_gives_no_result :
  path_exists Sample.world_bad_disk "data" = true /\
  load_from_disk Sample.world_bad_disk "data" = inl (LibraryError "not a dataset directory") /\
  ~ (exists t d, Processor.__call__ Sample.world_bad_disk (Sample.processor Sample.dargs_local)
                 = (t, Return d)).
Proof.
  split_and!; [reflexivity|reflexivity|].
  intros (t & d & H). vm_compute in H. discriminate.
Qed.

(** ** The orchestrator *)

Section MainFacts.
Variable w : World.

Lemma call_trace (ev : Event) : (call w ev).1 = [ev].
Proof. unfold call. rewrite emit_bind_trace. by destruct (fails w ev). Qed.

Lemma call_trace_Forall (P : Event -> Prop) (ev : Event) :
  P ev -> Forall P (call w ev).1.
Proof. intros H. rewrite call_trace. by apply Forall_singleton. Qed.

Lemma call_succeeds (ev : Event) :
  fails w ev = None -> call w ev = ([ev], Return tt).
Proof. intros H. unfold call, emit. rewrite bind_Return, H. reflexivity. Qed.

(** The processor is built with three arguments where four are required. *)
Lemma main_processor_raises (a : Arguments) (l : Locals) :
  main_processor w a l =
    ([], Raise (TypeError "Processor.__init__() missing 1 required positional argument: 'seed'")).
Proof. reflexivity. Qed.

(** So [main] is its set-up followed by that [TypeError]. *)
Lemma main_unfold (a : Arguments) :
  main w a =
    match main_setup w a with
    | (t, Return _) =>
        (t, Raise (TypeError "Processor.__init__() missing 1 required positional argument: 'seed'"))
    | (t, Raise e) => (t, Raise e)
    end.
Proof.
  unfold main. destruct (main_setup w a) as [t [l|e]]; [|reflexivity].
  rewrite bind_Return, main_processor_raises. simpl. by rewrite app_nil_r.
Qed.

Lemma main_trace (a : Arguments) : (main w a).1 = (main_setup w a).1.
Proof. rewrite main_unfold. by destruct (main_setup w a) as [t [l|e]]. Qed.

Lemma main_raises (a : Arguments) : exists e, (main w a).2 = Raise e.
Proof. rewrite main_unfold. destruct (main_setup w a) as [t [l|e]]; simpl; eauto. Qed.

End MainFacts.

(** One step through a computation of [main]. *)
Ltac main_trace_step :=
  first
    [ trace_step
    | match goal with
      | |- Forall _ (fst (call _ _)) => apply call_trace_Forall
      end ].

(** Nothing that [main] does before the data is prepared builds a collator
    or a trainer, trains or saves. *)
Lemma main_setup_events (w : World) (a : Arguments) :
  Forall (fun ev => ev ≠ EvTrainer /\ ev ≠ EvTrain /\
                    (forall dir, ev ≠ EvSavePretrained dir) /\
                    forall n, ev ≠ EvDataCollator n)
         (main_setup w a).1.
Proof.
  unfold main_setup, detect_last_checkpoint, load_config, load_tokenizer,
    load_base_model, load_peft_model, select_target_modules.
  repeat first [ main_trace_step | by (split_and!; try intros ?) ].
Qed.

(** Whatever the configuration and whatever the world, [main] ends in an
    exception, and it never gets as far as building the trainer, training or
    saving the model. *)
Lemma main_never_completes (w : World) (a : Arguments) :
  (exists e, (main w a).2 = Raise e) /\
  (EvTrainer ∉ (main w a).1) /\ (EvTrain ∉ (main w a).1) /\
  (forall dir, EvSavePretrained dir ∉ (main w a).1).
Proof.
  split; [apply main_raises|].
  rewrite main_trace.
  pose proof (main_setup_events w a) as H. rewrite Forall_forall in H.
  split_and!.
  - intros Hin. apply H in Hin. destruct Hin as (? & _). congruence.
  - intros Hin. apply H in Hin. destruct Hin as (_ & ? & _). congruence.
  - intros dir Hin. apply H in Hin. destruct Hin as (_ & _ & Hsave & _).
    by apply (Hsave dir).
Qed.

(** C3 at a valid configuration: an mT5 checkpoint, LoRA enabled, train and
    validation data on disk, a fresh output directory, no library failure.
    [main] raises [TypeError] when it builds the [Processor]; the trace stops
    after the LoRA model has been printed. *)
Theorem main_valid_configuration_raises :
  main Sample.world_ok Sample.args_valid =
    ([EvSetVerbosityInfo; EvSetLevel; EvSetSeed 42;
      EvAutoConfig "google/mt5-small";
      EvAutoTokenizer "google/mt5-small" true;
      EvModelFromPretrained AutoModelForSeq2SeqLM "google/mt5-small" false;
      EvLoraConfig ["q"; "wi_1"; "k"; "wi_0"; "v"; "wo"; "o"; "lm_head"];
      EvGetPeftModel;
      EvPrint "--------------------------------------------------";
      EvPrintTrainable;
      EvPrint "--------------------------------------------------"],
     Raise (TypeError "Processor.__init__() missing 1 required positional argument: 'seed'")).
Proof. vm_compute. reflexivity. Qed.

(** C5, as the code has it.  With training requested, no overwrite flag, and
    an output directory that exists, holds no checkpoint and is not empty,
    [main] raises [ValueError] straight after the checkpoint detection: the
    seed is not set, nothing is loaded, nothing is trained. *)
Theorem dirty_output_dir_is_refused (w : World) (a : Arguments) :
  isdir w (output_dir (training_args a)) = true ->
  do_train (training_args a) = true ->
  overwrite_output_dir (training_args a) = false ->
  get_last_checkpoint w (output_dir (training_args a)) = None ->
  listdir w (output_dir (training_args a)) ≠ [] ->
  main w a =
    ((if should_log (training_args a) then [EvSetVerbosityInfo] else []) ++
     [EvSetLevel; EvGetLastCheckpoint (output_dir (training_args a))],
     Raise (ValueError ("Output directory (" +:+ output_dir (training_args a) +:+
                        ") already exists and is not empty. Use --overwrite_output_dir to overcome."))).
Proof.
  intros Hdir Htrain Hover Hckpt Hlist.
  rewrite main_unfold. unfold main_setup, detect_last_checkpoint.
  rewrite Hdir, Htrain, Hover, Hckpt. simpl.
  destruct (listdir w (output_dir (training_args a))) as [|f fs]; [done|]. simpl.
  by destruct (should_log (training_args a)).
Qed.

Lemma dirty_output_dir_is_refused_witness :
  main Sample.world_dirty Sample.args_valid =
    ([EvSetVerbosityInfo; EvSetLevel; EvGetLastCheckpoint "out"],
     Raise (ValueError "Output directory (out) already exists and is not empty. Use --overwrite_output_dir to overcome.")).
Proof.
  apply (dirty_output_dir_is_refused Sample.world_dirty Sample.args_valid);
    [reflexivity|reflexivity|reflexivity|reflexivity|discriminate].
Defined.

(** C5 as stated does not hold: an output directory that is not empty because
    it holds a checkpoint is accepted without the overwrite flag; [main] goes
    on to set the seed and load the model, and the exception it ends in is
    not the configuration error. *)
Lemma checkpoint_in_output_dir_is_not_refused :
  isdir Sample.world_checkpoint (output_dir (training_args Sample.args_valid)) = true /\
  listdir Sample.world_checkpoint (output_dir (training_args Sample.args_valid)) ≠ [] /\
  overwrite_output_dir (training_args Sample.args_valid) = false /\
  (EvModelFromPretrained AutoModelForSeq2SeqLM "google/mt5-small" false
     ∈ (main Sample.world_checkpoint Sample.args_valid).1) /\
  ~ (exists msg, (main Sample.world_checkpoint Sample.args_valid).2 = Raise (ValueError msg)).
Proof.
  split_and!; [reflexivity|discriminate|reflexivity| |].
  - vm_compute. do 7 apply list_elem_of_further. apply list_elem_of_here.
  - intros [msg H]. vm_compute in H. discriminate.
Qed.

(** [select_target_modules] when the model name is of no known family. *)
Lemma select_target_modules_unknown (margs : ModelArguments) (largs : LoraArguments)
    (name : string) :
  model_name_or_path margs = Some name ->
  att_blocks largs = false ->
  str_in "mt5" name = false ->
  str_in "t5" name = false ->
  select_target_modules margs largs = ([], Return None).
Proof.
  intros Hname Hatt Hmt5 Ht5. unfold select_target_modules.
  rewrite Hname, Hatt.
  destruct (truthy (target_modules largs)); [|reflexivity].
  change (str_or "mt5" "flan-t5") with "mt5". unfold in_operator.
  rewrite bind_mret, Hmt5, bind_mret, Ht5. reflexivity.
Qed.

(** C6.  When LoRA is requested for a model whose name is of no known family
    (neither "mt5" nor "t5" occurs in it, attention-only targets not
    requested), the local [target_modules] is left unassigned, and reading it
    to build the [LoraConfig] raises: the LoRA branch ends in an exception
    without any library call ([UnboundLocalError] unless the gradient
    checkpointing assertion fails first), and no run of [main] constructs a
    [LoraConfig]. *)
Theorem unknown_family_raises_before_lora_config (w : World) (a : Arguments) (name : string) :
  use_lora (lora_args a) = true ->
  model_name_or_path (model_args a) = Some name ->
  att_blocks (lora_args a) = false ->
  str_in "mt5" name = false ->
  str_in "t5" name = false ->
  select_target_modules (model_args a) (lora_args a) = ([], Return None) /\
  (forall base, exists e,
     load_peft_model w (model_args a) (training_args a) (lora_args a) base = ([], Raise e) /\
     (gradient_checkpointing (training_args a) = false -> e = UnboundLocalError "target_modules")) /\
  (exists e, (main w a).2 = Raise e) /\
  (forall tm, EvLoraConfig tm ∉ (main w a).1).
Proof.
  intros Hlora Hname Hatt Hmt5 Ht5.
  pose proof (select_target_modules_unknown _ _ _ Hname Hatt Hmt5 Ht5) as Hsel.
  assert (Hpeft : forall base, exists e,
     load_peft_model w (model_args a) (training_args a) (lora_args a) base = ([], Raise e) /\
     (gradient_checkpointing (training_args a) = false -> e = UnboundLocalError "target_modules")).
  { intros base. unfold load_peft_model. rewrite Hlora, Hsel.
    destruct (gradient_checkpointing (training_args a)); simpl;
      eexists; (split; [reflexivity|done]). }
  split_and!; [done|done|apply main_raises|].
  assert (Hev : Forall (fun ev => forall tm, ev ≠ EvLoraConfig tm) (main_setup w a).1).
  { unfold main_setup, detect_last_checkpoint, load_config, load_tokenizer, load_base_model.
    repeat first
      [ match goal with
        | |- Forall _ (fst (load_peft_model _ _ _ _ ?b)) =>
            destruct (Hpeft b) as (? & -> & _); constructor
        end
      | main_trace_step
      | by intros ? ].
  }
  intros tm Hin. rewrite main_trace in Hin.
  rewrite Forall_forall in Hev. by apply (Hev _ Hin tm).
Qed.

Lemma unknown_family_raises_before_lora_config_witness :
  load_peft_model Sample.world_ok (model_args Sample.args_unknown_family)
    (training_args Sample.args_unknown_family) (lora_args Sample.args_unknown_family)
    (Pretrained AutoModelForCausalLM "facebook/bart-base" false)
  = ([], Raise (UnboundLocalError "target_modules")).
Proof.
  destruct (unknown_family_raises_before_lora_config Sample.world_ok
              Sample.args_unknown_family "facebook/bart-base")
    as (_ & Hpeft & _); [reflexivity..|].
  destruct (Hpeft (Pretrained AutoModelForCausalLM "facebook/bart-base" false)) as (e & -> & He).
  by rewrite He.
Defined.

(** ** Trainer construction *)

Section TrainerFacts.
Variable w : World.

(** With the model bound, both splits present and no library failure, the
    last part of [main] builds the trainer and trains; the save that follows
    is called without its directory and raises. *)
Lemma main_train_runs (a : Arguments) (l : Locals) (p : gmap string Dataset) m tr va :
  l_model l = Some m -> p !! "train" = Some tr -> p !! "validation" = Some va ->
  (forall ev, fails w ev = None) ->
  main_train w a l p =
    ([EvDataCollator 8; EvTrainer; EvTrain],
     Raise (TypeError "save_pretrained() missing 1 required positional argument: 'save_directory'")).
Proof.
  intros Hm Htr Hva Hok. unfold main_train, getitem, read_local.
  rewrite Hm, Htr, Hva. rewrite !call_succeeds by apply Hok.
  rewrite !bind_Return. reflexivity.
Qed.

(** Nothing [main_train] does saves the model, and it never returns. *)
Lemma main_train_raises (a : Arguments) (l : Locals) (p : gmap string Dataset) :
  (exists e, (main_train w a l p).2 = Raise e) /\
  (forall dir, EvSavePretrained dir ∉ (main_train w a l p).1).
Proof.
  assert (Hnot : forall (dir : option string) (t : list Event),
            Forall (fun ev => ev = EvDataCollator 8 \/ ev = EvTrainer \/ ev = EvTrain) t ->
            EvSavePretrained dir ∉ t).
  { intros dir t Ht Hin. rewrite Forall_forall in Ht.
    destruct (Ht _ Hin) as [?|[?|?]]; discriminate. }
  unfold main_train, call, emit, getitem, read_local.
  rewrite bind_Return. cbn [fst snd].
  destruct (fails w (EvDataCollator 8)), (l_model l), (p !! "train"),
    (p !! "validation"), (fails w EvTrainer), (fails w EvTrain); cbn;
    (split; [eauto|intros dir; apply Hnot;
                   repeat (apply Forall_cons; split; [auto|]); by apply Forall_nil]).
Qed.

(** The collator is built, then the arguments of the trainer are evaluated. *)
Lemma main_train_trace_short (a : Arguments) (l : Locals) (p : gmap string Dataset) :
  l_model l = None \/ p !! "train" = None \/ p !! "validation" = None ->
  (main_train w a l p).1 = [EvDataCollator 8] /\ exists e, (main_train w a l p).2 = Raise e.
Proof.
  intros H. unfold main_train, call, emit, getitem, read_local.
  rewrite bind_Return. simpl.
  destruct (fails w (EvDataCollator 8)) as [e|]; simpl; [eauto|].
  destruct (l_model l) as [m|]; simpl; [|eauto].
  destruct (p !! "train") as [tr|]; simpl; [|eauto].
  destruct (p !! "validation") as [va|]; simpl; [|eauto].
  destruct H as [H|[H|H]]; discriminate.
Qed.

Lemma main_train_unbound_model (a : Arguments) (l : Locals) (p : gmap string Dataset) :
  l_model l = None -> fails w (EvDataCollator 8) = None ->
  main_train w a l p = ([EvDataCollator 8], Raise (UnboundLocalError "model")).
Proof.
  intros Hm Hok. unfold main_train, read_local.
  rewrite Hm, (call_succeeds w _ Hok). reflexivity.
Qed.

Lemma main_train_missing_split (a : Arguments) (l : Locals) (p : gmap string Dataset) m :
  l_model l = Some m -> p !! "validation" = None -> fails w (EvDataCollator 8) = None ->
  main_train w a l p =
    ([EvDataCollator 8],
     Raise (KeyError (match p !! "train" with Some _ => "validation" | None => "train" end))).
Proof.
  intros Hm Hva Hok. unfold main_train, read_local, getitem.
  rewrite Hm, Hva, (call_succeeds w _ Hok).
  by destruct (p !! "train").
Qed.

(** The local [model] after the set-up is bound exactly when LoRA is used. *)
Lemma main_setup_model (a : Arguments) t (l : Locals) :
  main_setup w a = (t, Return l) ->
  is_Some (l_model l) <-> use_lora (lora_args a) = true.
Proof.
  unfold main_setup. intros H.
  do 7 (apply bind_inv_Return in H as (? & ? & ? & _ & H & _)).
  apply bind_inv_Return in H as (tp & [base' model'] & ? & Hpeft & H & _).
  injection H as _ <-. simpl.
  unfold load_peft_model in Hpeft.
  destruct (use_lora (lora_args a)).
  - do 8 (apply bind_inv_Return in Hpeft as (? & ? & ? & _ & Hpeft & _)).
    injection Hpeft as _ _ <-. split; eauto.
  - injection Hpeft as _ _ <-. split; [by intros [? ?]|done].
Qed.

End TrainerFacts.

(** C10.  With [use_lora] disabled the local [model] is never assigned: every
    state the set-up of [main] can end in has it unbound, and from such a state
    the trainer construction, reached after the collator is built, reads the
    unbound name and raises [UnboundLocalError], so that no trainer is built
    and no training starts. *)
Theorem model_is_bound_only_by_lora (w : World) (a : Arguments) :
  use_lora (lora_args a) = false ->
  (forall t l, main_setup w a = (t, Return l) -> l_model l = None) /\
  (forall l p, l_model l = None ->
     (main_train w a l p).1 = [EvDataCollator 8] /\
     (exists e, (main_train w a l p).2 = Raise e) /\
     (fails w (EvDataCollator 8) = None ->
      (main_train w a l p).2 = Raise (UnboundLocalError "model"))) /\
  (forall t l p, main_setup w a = (t, Return l) ->
     (EvTrainer ∉ (main_train w a l p).1) /\ (EvTrain ∉ (main_train w a l p).1)) /\
  (EvTrainer ∉ (main w a).1) /\ (EvTrain ∉ (main w a).1).
Proof.
  intros Hlora.
  assert (Hunbound : forall t l, main_setup w a = (t, Return l) -> l_model l = None).
  { intros t l H. apply main_setup_model in H. rewrite Hlora in H.
    destruct (l_model l) as [m|]; [|done].
    assert (false = true) by (apply H; eauto). discriminate. }
  split_and!.
  - exact Hunbound.
  - intros l p Hm. destruct (main_train_trace_short w a l p) as [Ht He]; [by left|].
    split_and!; [done|done|]. intros Hok. by rewrite main_train_unbound_model.
  - intros t l p H. apply Hunbound in H.
    destruct (main_train_trace_short w a l p) as [-> _]; [by left|].
    split; intros Hin; apply list_elem_of_singleton in Hin; discriminate.
  - apply main_never_completes.
  - apply main_never_completes.
Qed.

Lemma model_is_bound_only_by_lora_witness :
  (main_train Sample.world_ok Sample.args_no_lora_no_validation
     (Sample.locals None) Sample.both_splits).2 = Raise (UnboundLocalError "model").
Proof.
  destruct (model_is_bound_only_by_lora Sample.world_ok Sample.args_no_lora_no_validation)
    as (_ & Htrain & _); [reflexivity|].
  destruct (Htrain (Sample.locals None) Sample.both_splits) as (_ & _ & H); [reflexivity|].
  apply H. reflexivity.
Defined.

(** ** The validation split *)

Lemma call_train_other_keys (w : World) (s : Processor.self)
    (d d' : gmap string Dataset) (t : list Event) (k : string) :
  Processor.call_train w s d = (t, Return d') -> k ≠ "train" -> d' !! k = d !! k.
Proof.
  unfold Processor.call_train. intros H Hk.
  destruct (train_dir (Processor.data_args s)) as [dir|],
    (data_name (Processor.data_args s)) as [dn|];
    try destruct (dataset_name_train (Processor.data_args s)) as [name|];
    try (injection H as _ <-; done);
    repeat (apply bind_inv_Return in H as (? & ? & ? & _ & H & _));
    injection H as _ <-; by rewrite lookup_insert_ne.
Qed.

Lemma call_validation_no_source (w : World) (s : Processor.self) (d : gmap string Dataset) :
  valid_dir (Processor.data_args s) = None ->
  dataset_name_validation (Processor.data_args s) = None ->
  Processor.call_validation w s d = ([], Return d).
Proof. intros Hdir Hname. unfold Processor.call_validation. by rewrite Hdir, Hname. Qed.

(** Without a validation source the returned dictionary has no
    ["validation"] entry. *)
Lemma call_without_validation_source (w : World) (s : Processor.self)
    (t : list Event) (d : gmap string Dataset) :
  valid_dir (Processor.data_args s) = None ->
  dataset_name_validation (Processor.data_args s) = None ->
  Processor.__call__ w s = (t, Return d) ->
  d !! "validation" = None.
Proof.
  intros Hdir Hname. unfold Processor.__call__. intros H.
  apply bind_inv_Return in H as (t1 & d1 & t2 & Htrain & H & _).
  apply bind_inv_Return in H as (t3 & d2 & t4 & Hval & H & _).
  injection H as _ <-.
  rewrite call_validation_no_source in Hval by done. injection Hval as _ <-.
  by rewrite (call_train_other_keys _ _ _ _ _ _ Htrain).
Qed.

(** What the trainer construction does with a dictionary that lacks the
    validation split.  The trainer is built from [processor["train"]] and
    [processor["validation"]] with no test that the keys are there.  Without
    a validation source the dictionary that [__call__] returns has no
    ["validation"] entry; handed such a dictionary, the trainer construction
    raises [KeyError] when the model is bound, and in any case the last part
    of [main] ends in an exception right after the collator is built, with no
    trainer and no training. *)
Lemma trainer_construction_without_validation (w : World) (a : Arguments) :
  valid_dir (data_args a) = None ->
  dataset_name_validation (data_args a) = None ->
  (forall s t d, Processor.data_args s = data_args a ->
     Processor.__call__ w s = (t, Return d) -> d !! "validation" = None) /\
  (forall l p m, l_model l = Some m -> p !! "validation" = None ->
     fails w (EvDataCollator 8) = None ->
     main_train w a l p =
       ([EvDataCollator 8],
        Raise (KeyError (match p !! "train" with Some _ => "validation" | None => "train" end)))) /\
  (forall l p, p !! "validation" = None ->
     (main_train w a l p).1 = [EvDataCollator 8] /\
     exists e, (main_train w a l p).2 = Raise e).
Proof.
  intros Hdir Hname. split_and!.
  - intros s t d Hs. apply call_without_validation_source; by rewrite Hs.
  - intros l p m. apply main_train_missing_split.
  - intros l p Hva. apply main_train_trace_short. auto.
Qed.

(** With train data on disk and no validation source, the data processor
    returns, and what it returns has a train split. *)
Lemma call_returns_train_split :
  match (Processor.__call__ Sample.world_ok
           (Sample.processor (data_args Sample.args_no_validation))).2 with
  | Return d => bool_decide (is_Some (d !! "train"))
  | Raise _ => false
  end = true.
Proof. vm_compute. reflexivity. Qed.

(** C9 at a configuration that names no validation source and has nothing
    else wrong in it: an mT5 checkpoint, LoRA enabled, train data on disk, a
    fresh output directory, no library failure.  The data processor, run on
    these data arguments, returns a dictionary with a ["train"] entry and no
    ["validation"] entry, and the trainer construction, handed that
    dictionary, raises [KeyError "validation"] right after the collator is
    built: the lookup error of the claim.  The run of [main] does not get
    that far.  It raises [TypeError] where it builds the [Processor] with
    three arguments, before any data is read; the exception it ends in is
    not a lookup error. *)
Theorem main_without_validation_source :
  valid_dir (data_args Sample.args_no_validation) = None /\
  dataset_name_validation (data_args Sample.args_no_validation) = None /\
  (exists t d,
     Processor.__call__ Sample.world_ok
       (Sample.processor (data_args Sample.args_no_validation)) = (t, Return d) /\
     is_Some (d !! "train") /\
     d !! "validation" = None /\
     main_train Sample.world_ok Sample.args_no_validation
       (Sample.locals (Some Sample.peft_model)) d =
       ([EvDataCollator 8], Raise (KeyError "validation"))) /\
  main Sample.world_ok Sample.args_no_validation =
    ([EvSetVerbosityInfo; EvSetLevel; EvSetSeed 42;
      EvAutoConfig "google/mt5-small";
      EvAutoTokenizer "google/mt5-small" true;
      EvModelFromPretrained AutoModelForSeq2SeqLM "google/mt5-small" false;
      EvLoraConfig ["q"; "wi_1"; "k"; "wi_0"; "v"; "wo"; "o"; "lm_head"];
      EvGetPeftModel;
      EvPrint "--------------------------------------------------";
      EvPrintTrainable;
      EvPrint "--------------------------------------------------"],
     Raise (TypeError "Processor.__init__() missing 1 required positional argument: 'seed'")) /\
  ~ (exists key, (main Sample.world_ok Sample.args_no_validation).2 = Raise (KeyError key)).
Proof.
  split_and!; [reflexivity|reflexivity| |vm_compute; reflexivity|].
  - pose proof call_returns_train_split as Htrain.
    destruct (Processor.__call__ Sample.world_ok
                (Sample.processor (data_args Sample.args_no_validation)))
      as [t [d|e]] eqn:Hcall; [|discriminate].
    cbn [snd] in Htrain. apply bool_decide_eq_true in Htrain.
    exists t, d. split; [reflexivity|].
    assert (Hva : d !! "validation" = None).
    { apply (call_without_validation_source Sample.world_ok
               (Sample.processor (data_args Sample.args_no_validation)) t d);
        [reflexivity|reflexivity|exact Hcall]. }
    split_and!; [done|done|].
    destruct Htrain as [tr Htr].
    rewrite (main_train_missing_split Sample.world_ok Sample.args_no_validation
               (Sample.locals (Some Sample.peft_model)) d Sample.peft_model eq_refl Hva eq_refl).
    by rewrite Htr.
  - intros [key H]. vm_compute in H. discriminate.
Qed.

(** ** Training data from the hub *)

Lemma mapM_Forall2 {A B} (f : A -> M B) (l : list A) (k : list B) :
  Forall2 (fun a b => f a = ([], Return b)) l k -> mapM f l = ([], Return k).
Proof.
  induction 1 as [|a b l k Hab _ IH]; [reflexivity|].
  simpl. rewrite Hab, bind_Return, IH. reflexivity.
Qed.

Lemma a_2_b_bilingual (la lb : string) (row : Row) (a b : Val) :
  row !! la = Some a -> row !! lb = Some b ->
  a_2_b la lb row = ([], Return (directional a b)).
Proof. intros Ha Hb. unfold a_2_b, getitem. rewrite Ha, Hb. reflexivity. Qed.

(** The third testable property of the spec: one bilingual row gives exactly
    two directional rows. *)
Lemma multi_trans_single_row (a b : Val) :
  multi_trans [<["vi" := b]> {["en" := a]}] "en" "vi" =
    ([EvMultiTrans "en" "vi"], Return [directional a b; directional b a]).
Proof. reflexivity. Qed.

Lemma multi_trans_bilingual (rows : Dataset) (pairs : list (Val * Val)) :
  Forall2 (fun row ab => row !! "en" = Some ab.1 /\ row !! "vi" = Some ab.2) rows pairs ->
  multi_trans rows "en" "vi" =
    ([EvMultiTrans "en" "vi"],
     Return (flat_map (fun ab => [directional ab.1 ab.2; directional ab.2 ab.1]) pairs)).
Proof.
  intros H. unfold multi_trans, emit. rewrite bind_Return. simpl.
  rewrite (mapM_Forall2 _ rows
             ((fun ab => [directional ab.1 ab.2; directional ab.2 ab.1]) <$> pairs)).
  - rewrite bind_Return. simpl. by rewrite flat_map_concat_map.
  - apply Forall2_fmap_r. eapply Forall2_impl; [exact H|].
    intros row [a b] [Hen Hvi]. simpl in *.
    by rewrite (a_2_b_bilingual _ _ _ _ _ Hen Hvi), (a_2_b_bilingual _ _ _ _ _ Hvi Hen).
Qed.

Lemma dataset_map_a_2_b (call : MapCall) (la lb : string) (rows : Dataset)
    (pairs : list (Val * Val)) :
  Forall2 (fun row ab => row !! la = Some ab.1 /\ row !! lb = Some ab.2) rows pairs ->
  dataset_map call (a_2_b la lb) rows =
    ([EvMap call],
     Return (zip_with (fun row ab => directional ab.1 ab.2
                                       ∪ remove_columns (mc_remove_columns call) row)
                      rows pairs)).
Proof.
  intros H. unfold dataset_map, emit. rewrite bind_Return. simpl.
  erewrite mapM_Forall2; [reflexivity|].
  induction H as [|row [a b] rows pairs [Ha Hb] _ IH]; constructor; [|exact IH].
  simpl in *. by rewrite (a_2_b_bilingual _ _ _ _ _ Ha Hb).
Qed.

Lemma length_directional_pairs (pairs : list (Val * Val)) :
  length (flat_map (fun ab => [directional ab.1 ab.2; directional ab.2 ab.1]) pairs)
  = 2 * length pairs.
Proof. induction pairs as [|ab pairs IH]; simpl; lia. Qed.

(** C7, as the code has it.  Training data streamed from the hub
    ([dataset_name_train] given, the local branch not taken, [streaming] on).
    The stream is one of bilingual rows, with an ["en"] and a ["vi"] column.
    With a sample cap [n] that is not negative, the first [n] rows of the
    stream are materialized, which is [n] rows when the stream has that many
    and the whole stream when it is shorter, and [multi_trans] turns each of
    them into an en-to-vi and a vi-to-en example.  Without a cap, the whole stream is mapped twice with
    [a_2_b], once per direction, the two results are interleaved with
    [seed=self.seed] and the outcome is shuffled with [seed=self.seed] and a
    buffer of 10000 rows.  Either way the rows then go through [process_fn]
    and are stored under ["train"]. *)
Theorem hub_training_data (w : World) (s : Processor.self) (name : string)
    (rows : Dataset) (pairs : list (Val * Val)) :
  streaming (Processor.data_args s) = true ->
  dataset_name_train (Processor.data_args s) = Some name ->
  load_dataset w name "train" true = inr rows ->
  Forall2 (fun row ab => row !! "en" = Some ab.1 /\ row !! "vi" = Some ab.2) rows pairs ->
  (forall n, max_train_samples (Processor.data_args s) = Some n ->
     (0 <= n)%Z ->
     take_rows n rows = ([EvTake n], Return (take (Z.to_nat n) rows)) /\
     length (take (Z.to_nat n) rows) = Z.to_nat n `min` length rows /\
     Processor.hub_train_data w s name =
       ([EvLoadDataset name "train" (Some true);
         EvTake n; EvFromList; EvMultiTrans "en" "vi"],
        Return (flat_map (fun ab => [directional ab.1 ab.2; directional ab.2 ab.1])
                         (take (Z.to_nat n) pairs))) /\
     length (flat_map (fun ab => [directional ab.1 ab.2; directional ab.2 ab.1])
                      (take (Z.to_nat n) pairs))
     = 2 * (Z.to_nat n `min` length rows)) /\
  (max_train_samples (Processor.data_args s) = None ->
     Processor.hub_train_data w s name =
       ([EvLoadDataset name "train" (Some true);
         EvMap {| mc_fn := FnA2B "en" "vi"; mc_batched := true;
                  mc_remove_columns := ["en"; "vi"]; mc_num_proc := None |};
         EvMap {| mc_fn := FnA2B "vi" "en"; mc_batched := true;
                  mc_remove_columns := ["en"; "vi"]; mc_num_proc := None |};
         EvInterleave (Processor.seed s);
         EvShuffle (Processor.seed s) 10000],
        Return (shuffle w
                  (interleave_datasets w
                     [zip_with (fun row ab => directional ab.1 ab.2
                                                ∪ remove_columns ["en"; "vi"] row) rows pairs;
                      zip_with (fun row ab => directional ab.2 ab.1
                                                ∪ remove_columns ["en"; "vi"] row) rows pairs]
                     (Processor.seed s))
                  (Processor.seed s) 10000))) /\
  (forall d, train_dir (Processor.data_args s) = None \/
             data_name (Processor.data_args s) ≠ None ->
     Processor.call_train w s d =
       (train_data ← Processor.hub_train_data w s name;
        processed ← Processor.process_fn s (Some train_data);
        mret (<["train" := processed]> d))).
Proof.
  intros Hstream Hname Hload Hrows. split_and!.
  - intros n Hn Hrange.
    assert (Htake : take_rows n rows = ([EvTake n], Return (take (Z.to_nat n) rows))).
    { unfold take_rows, emit. rewrite bind_Return.
      destruct (Z.ltb_spec n 0) as [|_]; [lia|]. reflexivity. }
    split_and!; [exact Htake|apply length_take| |].
    + unfold Processor.hub_train_data, Processor.take_method.
      rewrite Hstream, Hload, Hn.
      rewrite emit_bind_eq. unfold lift_sum. rewrite bind_mret.
      cbv iota. rewrite Htake, bind_Return.
      replace (from_list (take (Z.to_nat n) rows))
        with ([EvFromList], Return (take (Z.to_nat n) rows)) by reflexivity.
      rewrite bind_Return.
      rewrite (multi_trans_bilingual _ (take (Z.to_nat n) pairs)) by by apply Forall2_take.
      reflexivity.
    + rewrite length_directional_pairs, length_take.
      by rewrite (Forall2_length _ _ _ Hrows).
  - intros Hn. unfold Processor.hub_train_data, Processor.shuffle_method.
    rewrite Hstream, Hload, Hn.
    rewrite emit_bind_eq. unfold lift_sum. rewrite bind_mret.
    rewrite (dataset_map_a_2_b _ "en" "vi" rows pairs Hrows), bind_Return.
    rewrite (dataset_map_a_2_b _ "vi" "en" rows (prod_swap <$> pairs)).
    + rewrite bind_Return, zip_with_fmap_r. reflexivity.
    + apply Forall2_fmap_r. eapply Forall2_impl; [exact Hrows|].
      by intros row [a b] [Hen Hvi].
  - intros d Hbranch. unfold Processor.call_train. rewrite Hname.
    destruct (train_dir (Processor.data_args s)), (data_name (Processor.data_args s));
      try reflexivity.
    destruct Hbranch as [?|?]; done.
Qed.

Lemma hub_training_data_witness :
  Processor.hub_train_data Sample.world_ok (Sample.processor Sample.dargs_capped) "hub/en-vi" =
    ([EvLoadDataset "hub/en-vi" "train" (Some true); EvTake 1; EvFromList;
      EvMultiTrans "en" "vi"],
     Return [directional (VText "a") (VText "b"); directional (VText "b") (VText "a")]).
Proof.
  destruct (hub_training_data Sample.world_ok (Sample.processor Sample.dargs_capped)
              "hub/en-vi" Sample.hub_rows
              [(VText "a", VText "b"); (VText "c", VText "d")])
    as (Hcap & _ & _); [reflexivity|reflexivity|reflexivity|repeat constructor|].
  destruct (Hcap 1%Z) as (_ & _ & H & _); [reflexivity|lia|].
  exact H.
Defined.

(** C7 as stated does not hold: a cap is an upper bound, not a count.  A
    stream of two rows read with a cap of three yields the two rows, which
    become four directional examples; three rows are never materialized. *)
Lemma hub_cap_beyond_stream :
  max_train_samples (Sample2.dargs_hub_capped 3) = Some 3%Z /\
  streaming (Sample2.dargs_hub_capped 3) = true /\
  load_dataset Sample.world_ok "hub/en-vi" "train" true = inr Sample.hub_rows /\
  take_rows 3 Sample.hub_rows = ([EvTake 3], Return Sample.hub_rows) /\
  length Sample.hub_rows = 2 /\
  Processor.hub_train_data Sample.world_ok
    (Sample.processor (Sample2.dargs_hub_capped 3)) "hub/en-vi" =
    ([EvLoadDataset "hub/en-vi" "train" (Some true); EvTake 3; EvFromList;
      EvMultiTrans "en" "vi"],
     Return [directional (VText "a") (VText "b"); directional (VText "b") (VText "a");
             directional (VText "c") (VText "d"); directional (VText "d") (VText "c")]).
Proof. split_and!; reflexivity. Qed.

(** ** The processed dataset, row by row *)

(** Every row that [process_fn] hands on is the row it was given, without
    the two text columns and with what [group_fn] made of it. *)
Lemma process_fn_rows (s : Processor.self) (ds out : Dataset) (t : list Event) :
  Processor.process_fn s (Some ds) = (t, Return out) ->
  Forall2 (fun row row' => exists enc,
             Processor.group_fn s row = ([], Return enc) /\
             row' = (VIds <$> enc) ∪ remove_columns ["inputs"; "targets"] row)
          ds out.
Proof.
  intros H.
  assert (Hmap : exists call t', mc_remove_columns call = ["inputs"; "targets"] /\
            mapM (fun row => out ← (enc ← Processor.group_fn s row; mret (VIds <$> enc));
                             mret (out ∪ remove_columns (mc_remove_columns call) row)) ds
            = (t', Return out)).
  { unfold Processor.process_fn, Processor.map_method, dataset_map in H.
    destruct (streaming (Processor.data_args s));
      apply bind_inv_Return in H as (? & ? & ? & _ & H & _);
      eexists _, _; (split; [|exact H]); reflexivity. }
  destruct Hmap as (call & t' & Hcols & Hmap). rewrite Hcols in Hmap.
  apply mapM_inv_Return in Hmap.
  eapply Forall2_impl; [exact Hmap|]. simpl. intros row row' [ta Hrow].
  apply bind_inv_Return in Hrow as (? & r & ? & Hgroup & Hrow & _).
  apply bind_inv_Return in Hgroup as (tg & enc & ? & Hgroup & Hr & _).
  injection Hr as _ <-. injection Hrow as _ <-.
  exists enc. split; [|done].
  pose proof (group_fn_trace s row) as Htr. rewrite Hgroup in Htr. simpl in Htr. by subst tg.
Qed.

(** X4.  In every row that [process_fn] hands on, the ["labels"] column is a
    list of ids none of which is the tokenizer's padding id (the padding id
    being a vocabulary index, not -100). *)
Lemma process_fn_labels (s : Processor.self) (ds out : Dataset) (t : list Event) (row' : Row) :
  pad_token_id (Processor.tokenizer s) ≠ Some Processor.ignore_index ->
  Processor.process_fn s (Some ds) = (t, Return out) ->
  row' ∈ out ->
  exists labels, row' !! "labels" = Some (VIds labels) /\
                 forall l, l ∈ labels -> Some l ≠ pad_token_id (Processor.tokenizer s).
Proof.
  intros Hpad H Hin. apply process_fn_rows in H.
  apply list_elem_of_lookup in Hin as [i Hi].
  destruct (Forall2_lookup_r _ _ _ _ _ H Hi) as (row & _ & enc & Hgroup & ->).
  destruct (group_fn_inv _ _ _ _ Hgroup)
    as (x & y & enc_in & enc_lab & raw & _ & _ & _ & _ & _ & -> & _).
  eexists. split.
  - apply lookup_union_Some_l. rewrite lookup_fmap, lookup_insert_eq. reflexivity.
  - intros l Hl. change (map ?f ?k) with (f <$> k) in Hl.
    apply list_elem_of_fmap in Hl as (l0 & -> & _). by apply mask_pad_not_pad.
Qed.

(** X5.  In every row that [process_fn] hands on, ["input_ids"] and
    ["labels"] are id lists of the configured maximum length, for a tokenizer
    that honours [padding="max_length", truncation=True]. *)
Lemma process_fn_lengths (s : Processor.self) (ds out : Dataset) (t : list Event)
    (row' : Row) (L : Z) :
  pads_to_max_length (Processor.tokenizer s) ->
  max_len (Processor.data_args s) = Some L ->
  Processor.process_fn s (Some ds) = (t, Return out) ->
  row' ∈ out ->
  exists ids labels,
    row' !! "input_ids" = Some (VIds ids) /\ row' !! "labels" = Some (VIds labels) /\
    Z.of_nat (length labels) = L /\ length labels = length ids.
Proof.
  intros Htok HL H Hin. apply process_fn_rows in H.
  apply list_elem_of_lookup in Hin as [i Hi].
  destruct (Forall2_lookup_r _ _ _ _ _ H Hi) as (row & _ & enc & Hgroup & ->).
  destruct (group_fn_inv _ _ _ _ Hgroup)
    as (x & y & enc_in & enc_lab & raw & _ & _ & Hin & Hlab & Hraw & -> & _).
  rewrite HL in Hin, Hlab.
  apply Htok in Hin as (ids & Hids & Hlen_ids).
  apply Htok in Hlab as (raw' & Hraw' & Hlen_raw).
  rewrite Hraw in Hraw'. injection Hraw' as <-.
  exists ids, (map (Processor.mask_pad (pad_token_id (Processor.tokenizer s))) raw).
  rewrite length_map. split_and!; [| |done|lia].
  - apply lookup_union_Some_l.
    rewrite lookup_fmap, lookup_insert_ne by done. by rewrite Hids.
  - apply lookup_union_Some_l. by rewrite lookup_fmap, lookup_insert_eq.
Qed.

(** With the seed passed, the processor is built and [__call__] returns both
    splits from the sample directory: two training rows, one validation row. *)
Example processor_with_seed :
  match (p ← Processor.__init__ (Sample.char_tokenizer 0) 8 Sample.dargs_local (Some 42%Z);
         Processor.__call__ Sample.world_ok p).2 with
  | Return d => (length <$> d !! "train", length <$> d !! "validation")
  | Raise _ => (None, None)
  end = (Some 2%nat, Some 1%nat).
Proof. vm_compute. reflexivity. Qed.

(** * Further properties of data.py *)

(** ** [group_fn] *)

(** X1.  An example without the ["inputs"] column makes [group_fn] raise
    [KeyError('inputs')] before the tokenizer is called; one with ["inputs"]
    but without ["targets"] makes it raise [KeyError('targets')] once the
    inputs have been tokenized. *)
Theorem group_fn_missing_column (s : Processor.self) (example : Row) :
  (example !! "inputs" = None ->
   Processor.group_fn s example = ([], Raise (KeyError "inputs"))) /\
  (forall x enc_in,
     example !! "inputs" = Some x ->
     tokenizer_call (Processor.tokenizer s) (Text x)
       (max_len (Processor.data_args s)) "max_length" true = inr enc_in ->
     example !! "targets" = None ->
     Processor.group_fn s example = ([], Raise (KeyError "targets"))).
Proof.
  split.
  - intros Hx. unfold Processor.group_fn, getitem. by rewrite Hx.
  - intros x enc_in Hx Hin Hy.
    unfold Processor.group_fn, Processor.tokenize_fn, getitem, lift_sum. simpl.
    replace (match max_len (Processor.data_args s) with Some l => Some l | None => None end)
      with (max_len (Processor.data_args s)) by (by destruct (max_len _)).
    by rewrite Hx, bind_mret, Hin, bind_mret, Hy.
Qed.

Lemma group_fn_missing_column_witness :
  Processor.group_fn (Sample.processor Sample.dargs_local) Sample2.row_without_inputs
  = ([], Raise (KeyError "inputs")).
Proof.
  apply (group_fn_missing_column (Sample.processor Sample.dargs_local)
           Sample2.row_without_inputs).
  reflexivity.
Defined.

(** X2.  What [group_fn] returns is the encoding of the inputs with one entry
    added: every column other than ["labels"] is the tokenizer's, untouched,
    and nothing of the target encoding but its masked ids is carried over. *)
Theorem group_fn_keeps_input_encoding (s : Processor.self) (example : Row)
    (t : list Event) (out : Encoding) :
  Processor.group_fn s example = (t, Return out) ->
  exists x enc_in,
    example !! "inputs" = Some x /\
    tokenizer_call (Processor.tokenizer s) (Text x)
      (max_len (Processor.data_args s)) "max_length" true = inr enc_in /\
    (forall k, k ≠ "labels" -> out !! k = enc_in !! k) /\
    is_Some (out !! "labels").
Proof.
  intros H.
  apply group_fn_inv in H as (x & y & enc_in & enc_lab & raw & Hx & _ & Hin & _ & _ & -> & _).
  exists x, enc_in. split_and!; [done|done| |].
  - intros k Hk. by rewrite lookup_insert_ne.
  - rewrite lookup_insert_eq. eauto.
Qed.

Lemma group_fn_keeps_input_encoding_witness :
  exists x enc_in,
    Sample.example_hi !! "inputs" = Some x /\
    tokenizer_call (Sample.char_tokenizer 0) (Text x) (Some 4%Z) "max_length" true = inr enc_in /\
    (forall k, k ≠ "labels" -> Sample.encoded_hi !! k = enc_in !! k) /\
    is_Some (Sample.encoded_hi !! "labels").
Proof.
  apply (group_fn_keeps_input_encoding (Sample.processor Sample.dargs_local)
           Sample.example_hi []).
  vm_compute. reflexivity.
Defined.

(** ** [process_fn] *)

Lemma remove_columns_lookup (row : Row) (k : string) :
  remove_columns ["inputs"; "targets"] row !! k =
    if bool_decide (k = "inputs" \/ k = "targets") then None else row !! k.
Proof.
  unfold remove_columns. simpl.
  case_bool_decide as Hk.
  - destruct Hk as [->| ->].
    + apply lookup_delete_eq.
    + rewrite lookup_delete_ne by done. apply lookup_delete_eq.
  - rewrite !lookup_delete_ne; [done|intros <-; auto..].
Qed.

(** X3.  [process_fn] hands on as many rows as it was given, in the same
    order.  In each, a column that [group_fn] returned holds its ids; the two
    text columns are gone; every other column of the row is kept. *)
Theorem process_fn_row_shape (s : Processor.self) (ds out : Dataset) (t : list Event) :
  Processor.process_fn s (Some ds) = (t, Return out) ->
  length out = length ds /\
  forall i row row', ds !! i = Some row -> out !! i = Some row' ->
    exists enc,
      Processor.group_fn s row = ([], Return enc) /\
      forall k, row' !! k =
        match enc !! k with
        | Some ids => Some (VIds ids)
        | None => if bool_decide (k = "inputs" \/ k = "targets") then None else row !! k
        end.
Proof.
  intros H. apply process_fn_rows in H. split.
  - symmetry. by eapply Forall2_length.
  - intros i row row' Hi Ho.
    destruct (Forall2_lookup_lr _ _ _ _ _ _ H Hi Ho) as (enc & Hgroup & ->).
    exists enc. split; [done|]. intros k.
    destruct (enc !! k) as [ids|] eqn:Hk.
    + apply lookup_union_Some_l. by rewrite lookup_fmap, Hk.
    + rewrite lookup_union_r by (by rewrite lookup_fmap, Hk).
      apply remove_columns_lookup.
Qed.

Lemma process_fn_row_shape_witness :
  length [<["id" := VText "7"]> (VIds <$> Sample.encoded_hi : Row)] =
  length [Sample2.example_with_id].
Proof.
  apply (process_fn_row_shape (Sample.processor Sample.dargs_local)
           [Sample2.example_with_id]
           [<["id" := VText "7"]> (VIds <$> Sample.encoded_hi : Row)]
           [EvMap {| mc_fn := FnGroup; mc_batched := false;
                     mc_remove_columns := ["inputs"; "targets"];
                     mc_num_proc := Some (Some 2%Z) |}]).
  vm_compute. reflexivity.
Defined.

Lemma process_fn_labels_witness :
  exists labels,
    (VIds <$> Sample.encoded_hi : Row) !! "labels" = Some (VIds labels) /\
    forall l, l ∈ labels -> Some l ≠ Some 0%Z.
Proof.
  apply (process_fn_labels (Sample.processor Sample.dargs_local)
           [Sample.example_hi] [VIds <$> Sample.encoded_hi]
           [EvMap {| mc_fn := FnGroup; mc_batched := false;
                     mc_remove_columns := ["inputs"; "targets"];
                     mc_num_proc := Some (Some 2%Z) |}]).
  - vm_compute. congruence.
  - vm_compute. reflexivity.
  - apply list_elem_of_here.
Defined.

Lemma process_fn_lengths_witness :
  exists ids labels,
    (VIds <$> Sample.encoded_hi : Row) !! "input_ids" = Some (VIds ids) /\
    (VIds <$> Sample.encoded_hi : Row) !! "labels" = Some (VIds labels) /\
    Z.of_nat (length labels) = 4%Z /\ length labels = length ids.
Proof.
  apply (process_fn_lengths (Sample.processor Sample.dargs_local)
           [Sample.example_hi] [VIds <$> Sample.encoded_hi]
           [EvMap {| mc_fn := FnGroup; mc_batched := false;
                     mc_remove_columns := ["inputs"; "targets"];
                     mc_num_proc := Some (Some 2%Z) |}]).
  - apply char_tokenizer_pads.
  - reflexivity.
  - vm_compute. reflexivity.
  - apply list_elem_of_here.
Defined.

(** ** Hub data without streaming *)



(** ** [load_data] *)

(** X7.  [load_data] reads nothing of the processor: its two branches on
    [streaming] are the same call, so local data is loaded in the same way,
    in full, whether streaming is on or off. *)
Theorem load_data_ignores_processor (w : World) (s s' : Processor.self)
    (path key : string) :
  Processor.load_data w s path key = Processor.load_data w s' path key.
Proof.
  unfold Processor.load_data.
  by destruct (streaming (Processor.data_args s)), (streaming (Processor.data_args s')).
Qed.

(** X8.  On a path that exists [load_data] never raises.  It returns the
    split stored under [key], recording the one load and nothing else; when
    the directory holds no such split, or cannot be loaded, it logs, prints
    and returns [None]. *)
Theorem load_data_on_existing_path (w : World) (s : Processor.self) (path key : string) :
  path_exists w path = true ->
  Processor.load_data w s path key =
    match load_from_disk w path with
    | inr dd =>
        match dd !! key with
        | Some dataset => ([EvLoadFromDisk path], Return (Some dataset))
        | None =>
            ([EvLoadFromDisk path;
              EvLoggerInfo ("Error loading dataset " +:+ path);
              EvPrint ("Error loading dataset " +:+ path)], Return None)
        end
    | inl _ =>
        ([EvLoadFromDisk path;
          EvLoggerInfo ("Error loading dataset " +:+ path);
          EvPrint ("Error loading dataset " +:+ path)], Return None)
    end.
Proof.
  intros Hp.
  destruct (load_from_disk w path) as [e|dd] eqn:Hload.
  - by apply load_data_swallows with e.
  - destruct (dd !! key) as [dataset|] eqn:Hkey.
    + unfold Processor.load_data, getitem. rewrite Hp, Hload. simpl. rewrite Hkey.
      by destruct (streaming (Processor.data_args s)).
    + by apply load_data_swallows_missing_split with dd.
Qed.

Lemma load_data_on_existing_path_witness :
  Processor.load_data Sample2.world_train_only (Sample.processor Sample.dargs_local)
    "data" "validation"
  = ([EvLoadFromDisk "data"; EvLoggerInfo "Error loading dataset data";
      EvPrint "Error loading dataset data"], Return None) /\
  Processor.load_data Sample2.world_train_only (Sample.processor Sample.dargs_local)
    "data" "train"
  = ([EvLoadFromDisk "data"], Return (Some [Sample.example_hi; Sample.example_hi])).
Proof.
  split.
  - apply (load_data_on_existing_path Sample2.world_train_only
             (Sample.processor Sample.dargs_local) "data" "validation"). reflexivity.
  - apply (load_data_on_existing_path Sample2.world_train_only
             (Sample.processor Sample.dargs_local) "data" "train"). reflexivity.
Defined.

(** ** [__call__] *)

Lemma call_validation_other_keys (w : World) (s : Processor.self)
    (d d' : gmap string Dataset) (t : list Event) (k : string) :
  Processor.call_validation w s d = (t, Return d') -> k ≠ "validation" -> d' !! k = d !! k.
Proof.
  unfold Processor.call_validation. intros H Hk.
  destruct (valid_dir (Processor.data_args s)) as [dir|];
    try destruct (dataset_name_validation (Processor.data_args s)) as [name|];
    try (injection H as _ <-; done);
    repeat (apply bind_inv_Return in H as (? & ? & ? & _ & H & _));
    injection H as _ <-; by rewrite lookup_insert_ne.
Qed.

(** X9.  The dictionary that [__call__] returns has no key other than
    ["train"] and ["validation"]. *)
Theorem call_keys (w : World) (s : Processor.self) (t : list Event)
    (d : gmap string Dataset) :
  Processor.__call__ w s = (t, Return d) ->
  forall k, is_Some (d !! k) -> k = "train" \/ k = "validation".
Proof.
  unfold Processor.__call__. intros H k [ds Hk].
  apply bind_inv_Return in H as (t1 & d1 & t2 & Htrain & H & _).
  apply bind_inv_Return in H as (t3 & d2 & t4 & Hval & H & _).
  injection H as _ <-.
  destruct (decide (k = "train")) as [|Hnt]; [by left|].
  destruct (decide (k = "validation")) as [|Hnv]; [by right|].
  rewrite (call_validation_other_keys _ _ _ _ _ _ Hval Hnv) in Hk.
  rewrite (call_train_other_keys _ _ _ _ _ _ Htrain Hnt) in Hk.
  by rewrite lookup_empty in Hk.
Qed.

Lemma call_keys_witness : "validation" = "train" \/ "validation" = "validation".
Proof.
  apply (call_keys Sample.world_ok (Sample.processor Sample.dargs_local)
           [EvLoadFromDisk "data";
            EvMap {| mc_fn := FnGroup; mc_batched := false;
                     mc_remove_columns := ["inputs"; "targets"];
                     mc_num_proc := Some (Some 2%Z) |};
            EvLoadFromDisk "data";
            EvMap {| mc_fn := FnGroup; mc_batched := false;
                     mc_remove_columns := ["inputs"; "targets"];
                     mc_num_proc := Some (Some 2%Z) |}]
           (<["validation" := [VIds <$> Sample.encoded_hi : Row]]>
            {["train" := [VIds <$> Sample.encoded_hi : Row; VIds <$> Sample.encoded_hi] ]})).
  - vm_compute. reflexivity.
  - vm_compute. eauto.
Defined.

(** X10.  Local directories take precedence over hub names.  With [train_dir]
    given and [data_name] not, no run of [__call__] fetches a train split from
    the hub, even when [dataset_name_train] is set; with [valid_dir] given, none
    fetches a validation split from the hub.  Conversely, when the local train
    branch is not taken, the train part reads nothing from disk. *)
Theorem call_source_precedence (w : World) (s : Processor.self) :
  (forall dir, train_dir (Processor.data_args s) = Some dir ->
     data_name (Processor.data_args s) = None ->
     Forall (fun ev => forall name kw, ev ≠ EvLoadDataset name "train" kw)
            (Processor.__call__ w s).1) /\
  (forall dir, valid_dir (Processor.data_args s) = Some dir ->
     Forall (fun ev => forall name kw, ev ≠ EvLoadDataset name "validation" kw)
            (Processor.__call__ w s).1) /\
  (forall d, train_dir (Processor.data_args s) = None \/
             data_name (Processor.data_args s) ≠ None ->
     Forall (fun ev => forall path, ev ≠ EvLoadFromDisk path)
            (Processor.call_train w s d).1).
Proof.
  split_and!.
  - intros dir Hdir Hname.
    unfold Processor.__call__, Processor.call_train. rewrite Hdir, Hname.
    unfold Processor.call_validation, Processor.load_data, Processor.select_method,
      Processor.process_fn, Processor.map_method,
      select_range, take_rows, from_list, multi_trans, dataset_map.
    repeat first [ trace_step | by (intros ? ? [=]) ].
  - intros dir Hdir.
    unfold Processor.__call__, Processor.call_validation. rewrite Hdir.
    unfold Processor.call_train, Processor.hub_train_data, Processor.load_data,
      Processor.select_method, Processor.process_fn, Processor.map_method,
      Processor.take_method, Processor.shuffle_method,
      select_range, take_rows, from_list, multi_trans, dataset_map.
    repeat first [ trace_step | by (intros ? ? [=]) ].
  - intros d Hbranch. unfold Processor.call_train.
    destruct (train_dir (Processor.data_args s)) as [dir|] eqn:Hdir,
      (data_name (Processor.data_args s)) as [dn|] eqn:Hname;
      try (destruct Hbranch; congruence);
      unfold Processor.hub_train_data, Processor.process_fn, Processor.map_method,
        Processor.take_method, Processor.shuffle_method,
        take_rows, from_list, multi_trans, dataset_map;
      repeat first [ trace_step | by (intros ? [=]) ].
Qed.

Lemma call_source_precedence_witness :
  Forall (fun ev => forall name kw, ev ≠ EvLoadDataset name "train" kw)
         (Processor.__call__ Sample.world_ok (Sample.processor Sample.dargs_local)).1.
Proof.
  destruct (call_source_precedence Sample.world_ok (Sample.processor Sample.dargs_local))
    as (Htrain & _ & _).
  apply (Htrain "data"); reflexivity.
Defined.

(** X11.  When the local train branch is not taken and no hub dataset is
    named, no train split is prepared, and that is not an error: nothing is
    loaded, logged or raised for it.  This is so in particular when both
    [train_dir] and [data_name] are given. *)
Theorem train_split_silently_absent (w : World) (s : Processor.self) :
  train_dir (Processor.data_args s) = None \/ data_name (Processor.data_args s) ≠ None ->
  dataset_name_train (Processor.data_args s) = None ->
  (forall d, Processor.call_train w s d = ([], Return d)) /\
  (forall t d, Processor.__call__ w s = (t, Return d) -> d !! "train" = None).
Proof.
  intros Hbranch Hname.
  assert (Htrain : forall d, Processor.call_train w s d = ([], Return d)).
  { intros d. unfold Processor.call_train. rewrite Hname.
    destruct (train_dir (Processor.data_args s)), (data_name (Processor.data_args s));
      try reflexivity.
    destruct Hbranch; done. }
  split; [exact Htrain|].
  intros t d H. unfold Processor.__call__ in H.
  apply bind_inv_Return in H as (t0 & d0 & t0' & Htr & H & _).
  rewrite Htrain in Htr. injection Htr as _ <-.
  apply bind_inv_Return in H as (t1 & d1 & t2 & Hval & H & _).
  injection H as _ <-.
  by rewrite (call_validation_other_keys _ _ _ _ _ _ Hval).
Qed.

Lemma train_split_silently_absent_witness :
  Processor.call_train Sample.world_ok (Sample.processor Sample2.dargs_data_name) ∅
  = ([], Return ∅).
Proof.
  destruct (train_split_silently_absent Sample.world_ok
              (Sample.processor Sample2.dargs_data_name)) as [H _].
  - right. discriminate.
  - reflexivity.
  - apply H.
Defined.

(** X12.  Validation data from the hub is never capped: when [valid_dir] is
    not given, what [__call__] does for the validation split is the same for
    every value of [max_valid_samples]. *)
Theorem hub_validation_ignores_cap (w : World) (tok : Tokenizer) (bs seed : Z)
    (da : DataTrainingArguments) (cap : option Z) (d : gmap string Dataset) :
  valid_dir da = None ->
  Processor.call_validation w
    {| Processor.tokenizer := tok; Processor.batch_size := bs;
       Processor.data_args := da; Processor.seed := seed |} d =
  Processor.call_validation w
    {| Processor.tokenizer := tok; Processor.batch_size := bs;
       Processor.data_args :=
         {| train_dir := train_dir da; valid_dir := valid_dir da;
            data_name := data_name da;
            dataset_name_train := dataset_name_train da;
            dataset_name_validation := dataset_name_validation da;
            max_train_samples := max_train_samples da;
            max_valid_samples := cap;
            streaming := streaming da; max_len := max_len da;
            dataset_num_workers := dataset_num_workers da |};
       Processor.seed := seed |} d.
Proof.
  intros Hdir. unfold Processor.call_validation. simpl. rewrite Hdir.
  reflexivity.
Qed.

Lemma hub_validation_ignores_cap_witness :
  Processor.call_validation Sample.world_ok
    (Sample.processor (Sample2.dargs_hub_validation None)) ∅ =
  Processor.call_validation Sample.world_ok
    (Sample.processor (Sample2.dargs_hub_validation (Some 1%Z))) ∅.
Proof.
  apply (hub_validation_ignores_cap Sample.world_ok (Sample.char_tokenizer 0) 8 42
           (Sample2.dargs_hub_validation None) (Some 1%Z) ∅).
  reflexivity.
Defined.

(** X13.  Local train data with a cap [n]: the rows are read from disk, then
    [select(range(n))] is applied.  A cap larger than the split makes
    [__call__]'s train part raise [IndexError] before any row is tokenized;
    otherwise the first [n] rows go through [process_fn] and the result is
    stored under ["train"]. *)
Theorem local_train_cap (w : World) (s : Processor.self) (dir : string)
    (dd : gmap string Dataset) (rows : Dataset) (n : Z) (d : gmap string Dataset) :
  train_dir (Processor.data_args s) = Some dir ->
  data_name (Processor.data_args s) = None ->
  path_exists w dir = true ->
  load_from_disk w dir = inr dd ->
  dd !! "train" = Some rows ->
  max_train_samples (Processor.data_args s) = Some n ->
  ((Z.of_nat (length rows) < n)%Z ->
     Processor.call_train w s d =
       ([EvLoadFromDisk dir; EvSelect n],
        Raise (IndexError "Index out of range for dataset"))) /\
  ((n <= Z.of_nat (length rows))%Z ->
     Processor.call_train w s d =
       ([EvLoadFromDisk dir; EvSelect n]
          ++ (Processor.process_fn s (Some (take (Z.to_nat n) rows))).1,
        match (Processor.process_fn s (Some (take (Z.to_nat n) rows))).2 with
        | Return processed => Return (<["train" := processed]> d)
        | Raise e => Raise e
        end)).
Proof.
  intros Hdir Hname Hp Hload Hkey Hcap.
  pose proof (load_data_on_existing_path w s dir "train" Hp) as Hld.
  rewrite Hload, Hkey in Hld.
  unfold Processor.call_train. rewrite Hdir, Hname, Hld, Hcap, bind_Return.
  unfold Processor.select_method, select_range. rewrite emit_bind_eq.
  split; intros Hn.
  - destruct (Z.leb_spec n (Z.of_nat (length rows))) as [|_]; [lia|]. reflexivity.
  - destruct (Z.leb_spec n (Z.of_nat (length rows))) as [_|]; [|lia]. simpl.
    destruct (Processor.process_fn s (Some (take (Z.to_nat n) rows))) as [tp [p|e]];
      [rewrite bind_Return|rewrite bind_Raise]; simpl; rewrite ?app_nil_r; reflexivity.
Qed.

Lemma local_train_cap_witness :
  Processor.call_train Sample.world_ok (Sample.processor (Sample2.dargs_local_capped 5)) ∅
  = ([EvLoadFromDisk "data"; EvSelect 5], Raise (IndexError "Index out of range for dataset")).
Proof.
  destruct (local_train_cap Sample.world_ok (Sample.processor (Sample2.dargs_local_capped 5))
              "data"
              (<["validation" := [Sample.example_hi]]>
               {["train" := [Sample.example_hi; Sample.example_hi] ]})
              [Sample.example_hi; Sample.example_hi] 5 ∅) as [H _];
    [reflexivity..|].
  apply H. simpl. lia.
Defined.

(** * Further properties of training.py *)

(** ** Substrings *)

Lemma string_app_nil (s : string) : "" +:+ s = s.
Proof. reflexivity. Qed.

Lemma string_app_cons (c : Ascii.ascii) (a s : string) :
  String c a +:+ s = String c (a +:+ s).
Proof. reflexivity. Qed.

Lemma prefix_inv (a s : string) :
  String.prefix a s = true -> exists post, s = a +:+ post.
Proof.
  revert s. induction a as [|c a IH]; intros s.
  - intros _. by exists s.
  - destruct s as [|c' s]; simpl; [done|].
    destruct (Ascii.ascii_dec c c') as [<-|]; [|done].
    intros H. apply IH in H as [post ->]. exists post.
    by rewrite string_app_cons.
Qed.

Lemma prefix_append (a post : string) : String.prefix a (a +:+ post) = true.
Proof.
  induction a as [|c a IH].
  - rewrite string_app_nil. by destruct post.
  - rewrite string_app_cons. simpl. by destruct (Ascii.ascii_dec c c).
Qed.

Lemma string_app_assoc (a b c : string) : (a +:+ b) +:+ c = a +:+ (b +:+ c).
Proof.
  induction a as [|x a IH]; [done|].
  by rewrite !string_app_cons, IH.
Qed.

Lemma str_in_unfold (sub s : string) :
  str_in sub s =
    if String.prefix sub s then true
    else match s with
         | EmptyString => false
         | String _ s' => str_in sub s'
         end.
Proof. by destruct s. Qed.

(** [str_in] is the substring test. *)
Lemma str_in_spec (sub s : string) :
  str_in sub s = true <-> exists pre post, s = pre +:+ (sub +:+ post).
Proof.
  split.
  - induction s as [|c s IH]; rewrite str_in_unfold.
    + destruct (String.prefix sub "") eqn:Hp; [|done].
      intros _. apply prefix_inv in Hp as [post ->]. by exists "", post.
    + destruct (String.prefix sub (String c s)) eqn:Hp.
      * intros _. apply prefix_inv in Hp as [post Hp]. exists "", post. by rewrite Hp.
      * intros H. apply IH in H as (pre & post & ->). by exists (String c pre), post.
  - intros (pre & post & ->). induction pre as [|c pre IH].
    + by rewrite string_app_nil, str_in_unfold, prefix_append.
    + rewrite string_app_cons, str_in_unfold.
      by destruct (String.prefix sub (String c (pre +:+ (sub +:+ post)))).
Qed.

(** A string that contains [a +:+ b] contains [a] and contains [b]. *)
Lemma str_in_app_l (a b s : string) : str_in (a +:+ b) s = true -> str_in a s = true.
Proof.
  rewrite !str_in_spec. intros (pre & post & ->).
  exists pre, (b +:+ post). by rewrite string_app_assoc.
Qed.

Lemma str_in_app_r (a b s : string) : str_in (a +:+ b) s = true -> str_in b s = true.
Proof.
  rewrite !str_in_spec. intros (pre & post & ->).
  exists (pre +:+ a), post. by rewrite !string_app_assoc.
Qed.

Lemma str_in_nonempty (sub s : string) :
  sub ≠ "" -> str_in sub s = true -> truthy (Some s) = true.
Proof.
  intros Hsub H. simpl. destruct s; [|done].
  apply str_in_spec in H as (pre & post & H).
  destruct pre, sub; done.
Qed.

(** ** Checkpoint detection *)

(** X14.  The check of the output directory raises exactly when the
    directory exists, training is requested, overwriting is not, the directory
    holds no checkpoint and it is not empty; what it raises is the
    [ValueError] that names the directory. *)
Theorem detect_last_checkpoint_raises_iff (w : World) (targs : TrainingArguments) (e : Exn) :
  (detect_last_checkpoint w targs).2 = Raise e <->
  isdir w (output_dir targs) = true /\
  do_train targs = true /\
  overwrite_output_dir targs = false /\
  get_last_checkpoint w (output_dir targs) = None /\
  listdir w (output_dir targs) ≠ [] /\
  e = ValueError ("Output directory (" +:+ output_dir targs +:+
                  ") already exists and is not empty. Use --overwrite_output_dir to overcome.").
Proof.
  unfold detect_last_checkpoint.
  destruct (isdir w (output_dir targs)), (do_train targs), (overwrite_output_dir targs);
    cbn [andb negb]; try (split; [discriminate|intros (? & ? & ? & _); discriminate]).
  rewrite emit_bind_eq.
  destruct (get_last_checkpoint w (output_dir targs)) as [c|] eqn:Hc.
  - rewrite bool_decide_eq_false_2 by done. simpl.
    split; [|intros (_ & _ & _ & ? & _); discriminate].
    destruct (bool_decide (resume_from_checkpoint targs = None)); simpl; discriminate.
  - rewrite bool_decide_eq_true_2 by done. simpl.
    destruct (listdir w (output_dir targs)) as [|f fs]; simpl.
    + split; [discriminate|intros (_ & _ & _ & _ & ? & _); done].
    + split; [intros [= <-]; done|]. by intros (_ & _ & _ & _ & _ & ->).
Qed.

(** X15.  The check of the output directory hands back a checkpoint exactly
    when the directory exists, training is requested, overwriting is not, and
    the directory holds that checkpoint.  When the directory does not exist, or
    training is not requested, or overwriting is, the directory is not looked
    into at all. *)
Theorem detect_last_checkpoint_returns (w : World) (targs : TrainingArguments) :
  (forall c,
     (detect_last_checkpoint w targs).2 = Return (Some c) <->
     isdir w (output_dir targs) = true /\
     do_train targs = true /\
     overwrite_output_dir targs = false /\
     get_last_checkpoint w (output_dir targs) = Some c) /\
  (isdir w (output_dir targs) && do_train targs && negb (overwrite_output_dir targs) = false ->
   detect_last_checkpoint w targs = ([], Return None)).
Proof.
  unfold detect_last_checkpoint. split.
  - intros c.
    destruct (isdir w (output_dir targs)), (do_train targs), (overwrite_output_dir targs);
      cbn [andb negb]; try (split; [discriminate|intros (? & ? & ? & _); discriminate]).
    rewrite emit_bind_eq.
    destruct (get_last_checkpoint w (output_dir targs)) as [c'|] eqn:Hc.
    + rewrite bool_decide_eq_false_2 by done. simpl.
      destruct (bool_decide (resume_from_checkpoint targs = None)); simpl;
        (split; [intros [= ->]; done|intros (_ & _ & _ & [= ->]); done]).
    + rewrite bool_decide_eq_true_2 by done. simpl.
      destruct (listdir w (output_dir targs)) as [|f fs]; simpl;
        (split; [discriminate|intros (_ & _ & _ & ?); discriminate]).
  - intros Hguard. by rewrite Hguard.
Qed.

Lemma detect_last_checkpoint_returns_witness :
  detect_last_checkpoint Sample.world_ok (training_args Sample.args_valid) = ([], Return None).
Proof.
  destruct (detect_last_checkpoint_returns Sample.world_ok (training_args Sample.args_valid))
    as [_ H].
  apply H. reflexivity.
Defined.

(** ** Tokenizer and base model *)

Section LoadingFacts.
Variable w : World.

Lemma load_config_returns (margs : ModelArguments) :
  (forall ev, fails w ev = None) -> exists t, load_config w margs = (t, Return tt).
Proof.
  intros Hok. unfold load_config.
  destruct (truthy (config_name margs)); [rewrite call_succeeds by done; eauto|].
  destruct (truthy (model_name_or_path margs)); [rewrite call_succeeds by done; eauto|].
  rewrite call_succeeds, bind_Return by done. rewrite emit_bind_eq.
  destruct (config_overrides margs) as [o|]; [|simpl; eauto].
  rewrite emit_bind_eq, call_succeeds, bind_Return by done. simpl. eauto.
Qed.

Lemma load_tokenizer_from_scratch (margs : ModelArguments) :
  truthy (tokenizer_name margs) = false ->
  truthy (model_name_or_path margs) = false ->
  load_tokenizer w margs =
    ([], Raise (ValueError ("You are instantiating a new tokenizer from scratch. This is not supported by this script."
                            +:+ "You can do it from another script, save it, and load it from here, using --tokenizer_name."))).
Proof. intros Ht Hm. unfold load_tokenizer. by rewrite Ht, Hm. Qed.

End LoadingFacts.

(** X16.  When neither a tokenizer name nor a model name is given, [main]
    refuses to build a tokenizer from scratch: loading the tokenizer raises
    [ValueError] without any library call, and no run of [main] loads a
    tokenizer or a model.  With an acceptable output directory and no library
    failure before, that [ValueError] is what [main] ends in. *)
Theorem from_scratch_tokenizer_refused (w : World) (a : Arguments) :
  truthy (tokenizer_name (model_args a)) = false ->
  truthy (model_name_or_path (model_args a)) = false ->
  load_tokenizer w (model_args a) =
    ([], Raise (ValueError ("You are instantiating a new tokenizer from scratch. This is not supported by this script."
                            +:+ "You can do it from another script, save it, and load it from here, using --tokenizer_name."))) /\
  Forall (fun ev => (forall name trust, ev ≠ EvAutoTokenizer name trust) /\
                    (forall cls name q, ev ≠ EvModelFromPretrained cls name q))
         (main w a).1 /\
  ((forall ev, fails w ev = None) ->
   isdir w (output_dir (training_args a)) = false ->
   (main w a).2 =
     Raise (ValueError ("You are instantiating a new tokenizer from scratch. This is not supported by this script."
                        +:+ "You can do it from another script, save it, and load it from here, using --tokenizer_name."))).
Proof.
  intros Ht Hm.
  pose proof (load_tokenizer_from_scratch w _ Ht Hm) as Htok.
  split_and!; [exact Htok| |].
  - rewrite main_trace.
    unfold main_setup, detect_last_checkpoint, load_config.
    repeat first
      [ match goal with
        | |- Forall _ (fst (mbind _ (load_tokenizer _ _))) =>
            rewrite Htok, bind_Raise; constructor
        end
      | main_trace_step
      | by (split; intros; discriminate) ].
  - intros Hok Hdir. rewrite main_unfold.
    assert (Hdet : detect_last_checkpoint w (training_args a) = ([], Return None)).
    { unfold detect_last_checkpoint. by rewrite Hdir. }
    destruct (load_config_returns w (model_args a) Hok) as [tc Hc].
    unfold main_setup.
    rewrite Hdet, (call_succeeds w _ (Hok _)), Hc, Htok.
    by destruct (should_log (training_args a)).
Qed.

Lemma from_scratch_tokenizer_refused_witness :
  (main Sample.world_ok
     (Sample2.args_with Sample2.margs_nothing (Sample.largs true) false)).2 =
    Raise (ValueError ("You are instantiating a new tokenizer from scratch. This is not supported by this script."
                       +:+ "You can do it from another script, save it, and load it from here, using --tokenizer_name.")).
Proof.
  destruct (from_scratch_tokenizer_refused Sample.world_ok
              (Sample2.args_with Sample2.margs_nothing (Sample.largs true) false))
    as (_ & _ & H); [reflexivity|reflexivity|].
  apply H; reflexivity.
Defined.

Lemma truthy_Some (o : option string) :
  truthy o = true -> exists s, o = Some s /\ s ≠ "".
Proof.
  destruct o as [s|]; [|done]. simpl. intros H. exists s. split; [done|].
  intros ->. done.
Qed.

Lemma truthy_false (o : option string) :
  truthy o = false -> o = None \/ o = Some "".
Proof.
  destruct o as [s|]; [|auto]. simpl. intros H. right. f_equal.
  apply String.eqb_eq. by destruct (String.eqb s "").
Qed.

Lemma call_fails (w : World) (ev : Event) (e : Exn) :
  fails w ev = Some e -> call w ev = ([ev], Raise e).
Proof. intros H. unfold call, emit. rewrite bind_Return, H. reflexivity. Qed.

Lemma load_tokenizer_pad_eos (w : World) (margs : ModelArguments) t (tok : Tokenizer) :
  load_tokenizer w margs = (t, Return tok) -> pad_token_id tok = eos_token_id tok.
Proof.
  unfold load_tokenizer. intros H.
  apply bind_inv_Return in H as (t1 & tk & t2 & _ & H & _).
  by injection H as _ <-.
Qed.

(** X17.  The tokenizer [main] works with is the pretrained one named by
    [tokenizer_name], or else by [model_name_or_path] (loaded with
    [trust_remote_code=True] in that case only), reconfigured: its padding id
    is the end-of-sequence id of the pretrained tokenizer, its padding side
    is the right, and it encodes as the pretrained tokenizer does once it
    pads with that id on that side. *)
Theorem load_tokenizer_pad_is_eos (w : World) (margs : ModelArguments)
    (t : list Event) (tok : Tokenizer) :
  load_tokenizer w margs = (t, Return tok) ->
  exists name,
    ((truthy (tokenizer_name margs) = true /\ tokenizer_name margs = Some name /\
      t = [EvAutoTokenizer name false]) \/
     (truthy (tokenizer_name margs) = false /\ model_name_or_path margs = Some name /\
      t = [EvAutoTokenizer name true])) /\
    tokenizer_call tok =
      tokenizer_with_padding w (from_pretrained_tokenizer w name)
        (eos_token_id (from_pretrained_tokenizer w name)) "right" /\
    pad_token_id tok = eos_token_id (from_pretrained_tokenizer w name) /\
    eos_token_id tok = eos_token_id (from_pretrained_tokenizer w name) /\
    padding_side tok = "right".
Proof.
  unfold load_tokenizer. intros H.
  apply bind_inv_Return in H as (t1 & tk & t2 & H1 & H & ->).
  injection H as <- <-. rewrite app_nil_r.
  destruct (truthy (tokenizer_name margs)) eqn:Ht.
  - apply truthy_Some in Ht as (name & Hname & _). rewrite Hname in H1. simpl in H1.
    apply bind_inv_Return in H1 as (tc & [] & t3 & Hcall & H1 & ->).
    injection H1 as <- <-.
    pose proof (call_trace w (EvAutoTokenizer name false)) as Htr.
    rewrite Hcall in Htr. simpl in Htr. subst tc.
    exists name. rewrite Hname. split_and!; auto.
  - destruct (truthy (model_name_or_path margs)) eqn:Hm; [|discriminate].
    apply truthy_Some in Hm as (name & Hname & _). rewrite Hname in H1. simpl in H1.
    apply bind_inv_Return in H1 as (tc & [] & t3 & Hcall & H1 & ->).
    injection H1 as <- <-.
    pose proof (call_trace w (EvAutoTokenizer name true)) as Htr.
    rewrite Hcall in Htr. simpl in Htr. subst tc.
    exists name. split_and!; auto.
Qed.

Lemma load_tokenizer_pad_is_eos_witness :
  exists name,
    ((truthy (tokenizer_name (Sample.margs "google/mt5-small")) = true /\
      tokenizer_name (Sample.margs "google/mt5-small") = Some name /\
      [EvAutoTokenizer "google/mt5-small" true] = [EvAutoTokenizer name false]) \/
     (truthy (tokenizer_name (Sample.margs "google/mt5-small")) = false /\
      model_name_or_path (Sample.margs "google/mt5-small") = Some name /\
      [EvAutoTokenizer "google/mt5-small" true] = [EvAutoTokenizer name true])) /\
    Sample.char_call 1 =
      tokenizer_with_padding Sample2.world_pad0_eos1
        (from_pretrained_tokenizer Sample2.world_pad0_eos1 name)
        (eos_token_id (from_pretrained_tokenizer Sample2.world_pad0_eos1 name)) "right" /\
    Some 1%Z = eos_token_id (from_pretrained_tokenizer Sample2.world_pad0_eos1 name) /\
    Some 1%Z = eos_token_id (from_pretrained_tokenizer Sample2.world_pad0_eos1 name) /\
    "right" = "right".
Proof.
  apply (load_tokenizer_pad_is_eos Sample2.world_pad0_eos1 (Sample.margs "google/mt5-small")
           [EvAutoTokenizer "google/mt5-small" true]
           {| tokenizer_call := Sample.char_call 1; pad_token_id := Some 1%Z;
              eos_token_id := Some 1%Z; padding_side := "right" |}).
  reflexivity.
Defined.

(** X18.  Since [main] makes the end-of-sequence id the padding id, a
    processor working with the tokenizer [main] loaded masks every
    end-of-sequence token of the targets: wherever the target encoding holds
    the end-of-sequence id, the labels hold -100. *)
Theorem eos_masked_in_labels (w : World) (margs : ModelArguments) (t : list Event)
    (s : Processor.self) (example : Row) (t' : list Event) (out : Encoding) :
  load_tokenizer w margs = (t, Return (Processor.tokenizer s)) ->
  Processor.group_fn s example = (t', Return out) ->
  exists y enc_lab raw labels,
    example !! "targets" = Some y /\
    tokenizer_call (Processor.tokenizer s) (TextTarget y)
      (max_len (Processor.data_args s)) "max_length" true = inr enc_lab /\
    enc_lab !! "input_ids" = Some raw /\
    out !! "labels" = Some labels /\
    forall i e, raw !! i = Some e -> eos_token_id (Processor.tokenizer s) = Some e ->
                labels !! i = Some (-100)%Z.
Proof.
  intros Htok H. apply load_tokenizer_pad_eos in Htok.
  apply group_fn_inv in H as (x & y & enc_in & enc_lab & raw & _ & Hy & _ & Hlab & Hraw & -> & _).
  exists y, enc_lab, raw, (map (Processor.mask_pad (pad_token_id (Processor.tokenizer s))) raw).
  split_and!; try done.
  - apply lookup_insert_eq.
  - intros i e Hi He. change (map ?f ?k) with (f <$> k).
    rewrite list_lookup_fmap, Hi. simpl. f_equal.
    apply mask_pad_at_pad. by rewrite Htok.
Qed.

Lemma eos_masked_in_labels_witness :
  exists y enc_lab raw labels,
    Sample.example_hi !! "targets" = Some y /\
    Sample.char_call 1 (TextTarget y) (Some 4%Z) "max_length" true = inr enc_lab /\
    enc_lab !! "input_ids" = Some raw /\
    (<["labels" := [120; 105; 110; -100]%Z]>
       (<["attention_mask" := [1; 1; 0; 0]%Z]> {["input_ids" := [104; 105; 1; 1]%Z]})
     : Encoding) !! "labels" = Some labels /\
    forall i e, raw !! i = Some e -> Some 1%Z = Some e -> labels !! i = Some (-100)%Z.
Proof.
  apply (eos_masked_in_labels Sample2.world_pad0_eos1 (Sample.margs "google/mt5-small")
           [EvAutoTokenizer "google/mt5-small" true]
           {| Processor.tokenizer :=
                {| tokenizer_call := Sample.char_call 1; pad_token_id := Some 1%Z;
                   eos_token_id := Some 1%Z; padding_side := "right" |};
              Processor.batch_size := 8;
              Processor.data_args := Sample.dargs_local;
              Processor.seed := 42 |}
           Sample.example_hi []).
  - reflexivity.
  - vm_compute. reflexivity.
Defined.

(** X19.  Without a usable model name nothing is loaded: when
    [model_name_or_path] is [None] or empty (a tokenizer name having let
    [main] come this far), the model loading step raises, [TypeError] unless
    the quantization config failed before, and [from_pretrained] is never
    called. *)
Theorem load_base_model_needs_name (w : World) (margs : ModelArguments) :
  truthy (model_name_or_path margs) = false ->
  (exists e, (load_base_model w margs).2 = Raise e) /\
  Forall (fun ev => forall cls name q, ev ≠ EvModelFromPretrained cls name q)
         (load_base_model w margs).1 /\
  (quantize margs = false \/ fails w EvBitsAndBytesConfig = None ->
   exists msg, (load_base_model w margs).2 = Raise (TypeError msg)).
Proof.
  intros Hname. unfold load_base_model.
  destruct (truthy_false _ Hname) as [Hn|Hn]; rewrite Hn; clear Hn Hname;
    destruct (quantize margs); cbv iota;
    try (destruct (fails w EvBitsAndBytesConfig) as [e|] eqn:Hf;
         [rewrite (call_fails w _ _ Hf)|rewrite (call_succeeds w _ Hf)]);
    simpl;
    (split_and!;
     [ eauto
     | first [apply Forall_nil_2 | apply Forall_singleton; intros ? ? ? [=]]
     | first [by intros [?|?] | eauto] ]).
Qed.

Lemma load_base_model_needs_name_witness :
  exists msg,
    (load_base_model Sample.world_ok Sample2.margs_tokenizer_only).2 = Raise (TypeError msg).
Proof.
  destruct (load_base_model_needs_name Sample.world_ok Sample2.margs_tokenizer_only)
    as (_ & _ & H); [reflexivity|].
  apply H. by left.
Defined.

(** ** Model class and LoRA targets *)

Lemma load_base_model_ok (w : World) (margs : ModelArguments) (name : string) :
  model_name_or_path margs = Some name ->
  name ≠ "" ->
  (forall ev, fails w ev = None) ->
  load_base_model w margs =
    ((if quantize margs then [EvBitsAndBytesConfig] else []) ++
     [EvModelFromPretrained
        (if str_in "mt" name then AutoModelForSeq2SeqLM else AutoModelForCausalLM)
        name (quantize margs)],
     Return (Pretrained
               (if str_in "mt" name then AutoModelForSeq2SeqLM else AutoModelForCausalLM)
               name (quantize margs))).
Proof.
  intros Hname Hne Hok.
  assert (Ht : truthy (Some name) = true).
  { simpl. destruct (String.eqb_spec name ""); done. }
  unfold load_base_model. rewrite Hname, Ht. unfold in_operator.
  destruct (quantize margs); cbv iota.
  - rewrite (call_succeeds w _ (Hok _)), bind_Return, bind_mret. cbv zeta.
    rewrite (call_succeeds w _ (Hok _)), bind_Return. reflexivity.
  - rewrite !bind_mret. cbv zeta.
    rewrite (call_succeeds w _ (Hok _)), bind_Return. reflexivity.
Qed.

Lemma select_target_modules_by_name (margs : ModelArguments) (largs : LoraArguments)
    (name : string) :
  model_name_or_path margs = Some name ->
  truthy (target_modules largs) = true ->
  att_blocks largs = false ->
  select_target_modules margs largs =
    ([], Return (if str_in "mt5" name
                 then Some ["q"; "wi_1"; "k"; "wi_0"; "v"; "wo"; "o"; "lm_head"]
                 else if str_in "t5" name
                      then Some ["v"; "q"; "k"; "wi"; "wo"; "o"; "lm_head"]
                      else None)).
Proof.
  intros Hname Htm Hatt. unfold select_target_modules.
  rewrite Hname, Htm, Hatt. change (str_or "mt5" "flan-t5") with "mt5".
  unfold in_operator. rewrite bind_mret.
  destruct (str_in "mt5" name); [reflexivity|].
  rewrite bind_mret. by destruct (str_in "t5" name).
Qed.

(** X20.  A T5 checkpoint whose name does not contain "mt" (t5-small,
    flan-t5, ...) is loaded with [AutoModelForCausalLM], the class being
    chosen by the substring "mt" alone, while the LoRA targets chosen for it
    are those of T5. *)
Theorem t5_loaded_as_causal_lm (w : World) (margs : ModelArguments)
    (largs : LoraArguments) (name : string) :
  model_name_or_path margs = Some name ->
  str_in "t5" name = true ->
  str_in "mt" name = false ->
  (forall ev, fails w ev = None) ->
  load_base_model w margs =
    ((if quantize margs then [EvBitsAndBytesConfig] else []) ++
     [EvModelFromPretrained AutoModelForCausalLM name (quantize margs)],
     Return (Pretrained AutoModelForCausalLM name (quantize margs))) /\
  (truthy (target_modules largs) = true -> att_blocks largs = false ->
   select_target_modules margs largs =
     ([], Return (Some ["v"; "q"; "k"; "wi"; "wo"; "o"; "lm_head"]))).
Proof.
  intros Hname Ht5 Hmt Hok. split.
  - rewrite (load_base_model_ok w margs name Hname); [by rewrite Hmt| |done].
    intros ->. done.
  - intros Htm Hatt. rewrite (select_target_modules_by_name _ _ _ Hname Htm Hatt), Ht5.
    destruct (str_in "mt5" name) eqn:Hmt5; [|done].
    apply (str_in_app_l "mt" "5") in Hmt5. congruence.
Qed.

Lemma t5_loaded_as_causal_lm_witness :
  load_base_model Sample.world_ok (Sample.margs "google/flan-t5-base") =
    ([EvModelFromPretrained AutoModelForCausalLM "google/flan-t5-base" false],
     Return (Pretrained AutoModelForCausalLM "google/flan-t5-base" false)).
Proof.
  destruct (t5_loaded_as_causal_lm Sample.world_ok (Sample.margs "google/flan-t5-base")
              (Sample.largs true) "google/flan-t5-base") as [H _];
    [reflexivity..|].
  exact H.
Defined.

(** X21.  A checkpoint whose name contains "mt5" is loaded with
    [AutoModelForSeq2SeqLM], and the LoRA targets chosen for it are those of
    mT5. *)
Theorem mt5_loaded_as_seq2seq (w : World) (margs : ModelArguments)
    (largs : LoraArguments) (name : string) :
  model_name_or_path margs = Some name ->
  str_in "mt5" name = true ->
  (forall ev, fails w ev = None) ->
  load_base_model w margs =
    ((if quantize margs then [EvBitsAndBytesConfig] else []) ++
     [EvModelFromPretrained AutoModelForSeq2SeqLM name (quantize margs)],
     Return (Pretrained AutoModelForSeq2SeqLM name (quantize margs))) /\
  (truthy (target_modules largs) = true -> att_blocks largs = false ->
   select_target_modules margs largs =
     ([], Return (Some ["q"; "wi_1"; "k"; "wi_0"; "v"; "wo"; "o"; "lm_head"]))).
Proof.
  intros Hname Hmt5 Hok. split.
  - rewrite (load_base_model_ok w margs name Hname); [| |done].
    + by rewrite (str_in_app_l "mt" "5" name Hmt5).
    + intros ->. done.
  - intros Htm Hatt.
    by rewrite (select_target_modules_by_name _ _ _ Hname Htm Hatt), Hmt5.
Qed.

Lemma mt5_loaded_as_seq2seq_witness :
  load_base_model Sample.world_ok (Sample.margs "google/mt5-small") =
    ([EvModelFromPretrained AutoModelForSeq2SeqLM "google/mt5-small" false],
     Return (Pretrained AutoModelForSeq2SeqLM "google/mt5-small" false)).
Proof.
  destruct (mt5_loaded_as_seq2seq Sample.world_ok (Sample.margs "google/mt5-small")
              (Sample.largs true) "google/mt5-small") as [H _];
    [reflexivity..|].
  exact H.
Defined.

(** X22.  In [("mt5" or "flan-t5") in name] the second string is never looked
    for: a flan-t5 checkpoint (whose name does not contain "mt5") gets the
    plain T5 target list, with "wi", not the list with "wi_0" and "wi_1". *)
Theorem flan_t5_gets_t5_targets (margs : ModelArguments) (largs : LoraArguments)
    (name : string) :
  model_name_or_path margs = Some name ->
  str_in "flan-t5" name = true ->
  str_in "mt5" name = false ->
  truthy (target_modules largs) = true ->
  att_blocks largs = false ->
  select_target_modules margs largs =
    ([], Return (Some ["v"; "q"; "k"; "wi"; "wo"; "o"; "lm_head"])).
Proof.
  intros Hname Hflan Hmt5 Htm Hatt.
  rewrite (select_target_modules_by_name _ _ _ Hname Htm Hatt), Hmt5.
  by rewrite (str_in_app_r "flan-" "t5" name Hflan).
Qed.

Lemma flan_t5_gets_t5_targets_witness :
  select_target_modules (Sample.margs "google/flan-t5-base") (Sample.largs true) =
    ([], Return (Some ["v"; "q"; "k"; "wi"; "wo"; "o"; "lm_head"])).
Proof.
  apply (flan_t5_gets_t5_targets (Sample.margs "google/flan-t5-base") (Sample.largs true)
           "google/flan-t5-base"); reflexivity.
Defined.

(** X23.  With a model name given, choosing the LoRA targets never raises,
    and it leaves [target_modules] assigned exactly when
    [lora_args.target_modules] is set and either attention-only targets are
    requested or "t5" occurs in the model name. *)
Theorem target_modules_resolved_iff (margs : ModelArguments) (largs : LoraArguments)
    (name : string) :
  model_name_or_path margs = Some name ->
  (exists r, select_target_modules margs largs = ([], Return r)) /\
  ((exists tm, select_target_modules margs largs = ([], Return (Some tm))) <->
   truthy (target_modules largs) = true /\
   (att_blocks largs = true \/ str_in "t5" name = true)).
Proof.
  intros Hname.
  destruct (truthy (target_modules largs)) eqn:Htm.
  - destruct (att_blocks largs) eqn:Hatt.
    + assert (H : select_target_modules margs largs = ([], Return (Some ["v"; "q"; "k"; "o"]))).
      { unfold select_target_modules. by rewrite Htm, Hatt. }
      rewrite H. split; [eauto|]. split; [auto|eauto].
    + rewrite (select_target_modules_by_name _ _ _ Hname Htm Hatt).
      split; [eauto|].
      destruct (str_in "mt5" name) eqn:Hmt5.
      * rewrite (str_in_app_r "m" "t5" name Hmt5). split; [auto|eauto].
      * destruct (str_in "t5" name); split; eauto; try (intros [tm [=]]).
        intros [_ [?|?]]; discriminate.
  - assert (H : select_target_modules margs largs = ([], Return None)).
    { unfold select_target_modules. by rewrite Htm. }
    rewrite H. split; [eauto|]. split; [intros [tm [=]]|intros [? _]; discriminate].
Qed.

Lemma target_modules_resolved_iff_witness :
  (exists tm, select_target_modules (Sample.margs "facebook/bart-base") (Sample.largs true)
              = ([], Return (Some tm))) <->
  truthy (target_modules (Sample.largs true)) = true /\
  (att_blocks (Sample.largs true) = true \/ str_in "t5" "facebook/bart-base" = true).
Proof.
  apply (target_modules_resolved_iff (Sample.margs "facebook/bart-base") (Sample.largs true)
           "facebook/bart-base").
  reflexivity.
Defined.

(** X24.  What [lora_args.target_modules] holds is never used, only whether
    it is set: two LoRA argument groups that agree on that and on
    [att_blocks] get the same targets, which come from the tables in [main]. *)
Theorem target_modules_value_ignored (margs : ModelArguments) (l1 l2 : LoraArguments) :
  truthy (target_modules l1) = truthy (target_modules l2) ->
  att_blocks l1 = att_blocks l2 ->
  select_target_modules margs l1 = select_target_modules margs l2.
Proof. intros Htm Hatt. unfold select_target_modules. by rewrite Htm, Hatt. Qed.

Lemma target_modules_value_ignored_witness :
  select_target_modules (Sample.margs "google/mt5-small") (Sample.largs true) =
  select_target_modules (Sample.margs "google/mt5-small")
    {| use_lora := true; target_modules := Some "lm_head";
       att_blocks := false; use_int8_training := true |}.
Proof.
  apply (target_modules_value_ignored (Sample.margs "google/mt5-small") (Sample.largs true)
           {| use_lora := true; target_modules := Some "lm_head";
              att_blocks := false; use_int8_training := true |}); reflexivity.
Defined.

(** X25.  LoRA and gradient checkpointing exclude each other: with both
    requested the LoRA branch fails its assertion at once, and no run of
    [main] builds a LoRA config, prepares the model for int8 training or
    wraps it. *)
Theorem gradient_checkpointing_blocks_lora (w : World) (a : Arguments) :
  use_lora (lora_args a) = true ->
  gradient_checkpointing (training_args a) = true ->
  (forall base,
     load_peft_model w (model_args a) (training_args a) (lora_args a) base =
       ([], Raise (AssertionError "Can not use gradients_checkpointing with LoRA"))) /\
  (exists e, (main w a).2 = Raise e) /\
  Forall (fun ev => (forall tm, ev ≠ EvLoraConfig tm) /\ ev ≠ EvPrepareInt8 /\
                    ev ≠ EvGetPeftModel)
         (main w a).1.
Proof.
  intros Hlora Hgc.
  assert (Hpeft : forall base,
     load_peft_model w (model_args a) (training_args a) (lora_args a) base =
       ([], Raise (AssertionError "Can not use gradients_checkpointing with LoRA"))).
  { intros base. unfold load_peft_model. by rewrite Hlora, Hgc. }
  split_and!; [exact Hpeft|apply main_raises|].
  rewrite main_trace.
  unfold main_setup, detect_last_checkpoint, load_config, load_tokenizer, load_base_model.
  repeat first
    [ match goal with
      | |- Forall _ (fst (load_peft_model _ _ _ _ ?b)) => rewrite (Hpeft b); constructor
      end
    | main_trace_step
    | by (split_and!; intros; discriminate) ].
Qed.

Lemma gradient_checkpointing_blocks_lora_witness :
  load_peft_model Sample.world_ok (Sample.margs "google/mt5-small")
    (training_args (Sample2.args_with (Sample.margs "google/mt5-small") (Sample.largs true) true))
    (Sample.largs true) (Pretrained AutoModelForSeq2SeqLM "google/mt5-small" false)
  = ([], Raise (AssertionError "Can not use gradients_checkpointing with LoRA")).
Proof.
  destruct (gradient_checkpointing_blocks_lora Sample.world_ok
              (Sample2.args_with (Sample.margs "google/mt5-small") (Sample.largs true) true))
    as (H & _ & _); [reflexivity|reflexivity|].
  apply (H (Pretrained AutoModelForSeq2SeqLM "google/mt5-small" false)).
Defined.

(** ** Order of the set-up *)

Lemma call_bind_trace {B} (w : World) (ev : Event) (f : unit -> M B) :
  exists t', (call w ev ≫= f).1 = ev :: t'.
Proof.
  destruct (fails w ev) as [e|] eqn:Hf.
  - rewrite (call_fails w _ _ Hf), bind_Raise. by exists [].
  - rewrite (call_succeeds w _ Hf), bind_Return. simpl. eauto.
Qed.

(** The trace of the set-up: housekeeping, then the seed, then the rest. *)
Lemma main_setup_trace_split (w : World) (a : Arguments) :
  exists t0 t1,
    (main_setup w a).1 = t0 ++ t1 /\
    Forall (fun ev => match ev with
                      | EvSetVerbosityInfo | EvSetLevel | EvGetLastCheckpoint _
                      | EvLoggerInfo _ => True
                      | _ => False
                      end) t0 /\
    (t1 = [] \/ exists t', t1 = EvSetSeed (training_seed (training_args a)) :: t').
Proof.
  assert (Hdet : Forall (fun ev => match ev with
                      | EvSetVerbosityInfo | EvSetLevel | EvGetLastCheckpoint _
                      | EvLoggerInfo _ => True
                      | _ => False
                      end) (detect_last_checkpoint w (training_args a)).1).
  { unfold detect_last_checkpoint. repeat first [ trace_step | done ]. }
  unfold main_setup.
  destruct (detect_last_checkpoint w (training_args a)) as [td [lc|e]]; simpl in Hdet.
  - match goal with
    | |- context [call w ?ev ≫= ?f] => destruct (call_bind_trace w ev f) as [t' Ht']
    end.
    destruct (should_log (training_args a)); unfold emit;
      rewrite !bind_Return; simpl; rewrite Ht'.
    + exists (EvSetVerbosityInfo :: EvSetLevel :: td), (EvSetSeed (training_seed (training_args a)) :: t').
      split_and!; [done| |eauto]. by repeat constructor.
    + exists (EvSetLevel :: td), (EvSetSeed (training_seed (training_args a)) :: t').
      split_and!; [done| |eauto]. by repeat constructor.
  - destruct (should_log (training_args a)); unfold emit;
      rewrite !bind_Return, bind_Raise; simpl.
    + exists (EvSetVerbosityInfo :: EvSetLevel :: td), [].
      split_and!; [by rewrite app_nil_r| |auto]. by repeat constructor.
    + exists (EvSetLevel :: td), [].
      split_and!; [by rewrite app_nil_r| |auto]. by repeat constructor.
Qed.

(** X26.  "Set seed before initializing model": in every run of [main], a
    call that loads or builds a config, a tokenizer, a model or a LoRA
    adapter comes after [set_seed(training_args.seed)]. *)
Theorem seed_before_loading (w : World) (a : Arguments) (pre post : list Event)
    (ev : Event) :
  (main w a).1 = pre ++ ev :: post ->
  match ev with
  | EvAutoConfig _ | EvConfigMapping _ | EvConfigUpdate _ | EvAutoTokenizer _ _
  | EvBitsAndBytesConfig | EvModelFromPretrained _ _ _ | EvLoraConfig _
  | EvPrepareInt8 | EvGetPeftModel => True
  | _ => False
  end ->
  EvSetSeed (training_seed (training_args a)) ∈ pre.
Proof.
  rewrite main_trace. intros Htrace Hev.
  destruct (main_setup_trace_split w a) as (t0 & t1 & Hsplit & Ht0 & Ht1).
  rewrite Hsplit in Htrace.
  apply app_eq_app in Htrace as [l [[-> Hl]|[-> Hl]]].
  - destruct l as [|x l]; simpl in Hl.
    + destruct Ht1 as [->|[t' ->]]; [done|]. injection Hl as -> _. done.
    + injection Hl as -> _.
      apply Forall_app in Ht0 as [_ Ht0]. apply Forall_cons in Ht0 as [Hx _].
      by destruct x.
  - destruct Ht1 as [->|[t' ->]]; [by destruct l|].
    destruct l as [|x l]; simpl in Hl.
    + injection Hl as <- _. done.
    + injection Hl as <- _. apply elem_of_app. right. apply list_elem_of_here.
Qed.

Lemma seed_before_loading_witness :
  EvSetSeed 42 ∈ [EvSetVerbosityInfo; EvSetLevel; EvSetSeed 42].
Proof.
  apply (seed_before_loading Sample.world_ok Sample.args_valid
           [EvSetVerbosityInfo; EvSetLevel; EvSetSeed 42]
           [EvAutoTokenizer "google/mt5-small" true;
            EvModelFromPretrained AutoModelForSeq2SeqLM "google/mt5-small" false;
            EvLoraConfig ["q"; "wi_1"; "k"; "wi_0"; "v"; "wo"; "o"; "lm_head"];
            EvGetPeftModel;
            EvPrint "--------------------------------------------------";
            EvPrintTrainable;
            EvPrint "--------------------------------------------------"]
           (EvAutoConfig "google/mt5-small")).
  - vm_compute. reflexivity.
  - exact I.
Defined.

(** ** The last part of [main] *)

(** X27.  Handed a processor result, the last part of [main] never returns
    normally and never saves: [trainer.model.save_pretrained()] is called
    without the directory it requires.  Training is reached exactly when the
    model is bound, both splits are there and neither the collator nor the
    trainer construction raises; when training succeeds too, the run ends in
    the [TypeError] of the save. *)
Theorem main_train_never_saves (w : World) (a : Arguments) (l : Locals)
    (p : gmap string Dataset) :
  (exists e, (main_train w a l p).2 = Raise e) /\
  (forall dir, EvSavePretrained dir ∉ (main_train w a l p).1) /\
  (EvTrain ∈ (main_train w a l p).1 <->
   is_Some (l_model l) /\ is_Some (p !! "train") /\ is_Some (p !! "validation") /\
   fails w (EvDataCollator 8) = None /\ fails w EvTrainer = None) /\
  (is_Some (l_model l) -> is_Some (p !! "train") -> is_Some (p !! "validation") ->
   fails w (EvDataCollator 8) = None -> fails w EvTrainer = None ->
   fails w EvTrain = None ->
   exists msg,
     main_train w a l p = ([EvDataCollator 8; EvTrainer; EvTrain], Raise (TypeError msg))).
Proof.
  split_and!.
  - apply main_train_raises.
  - apply main_train_raises.
  - unfold main_train, call, emit, read_local, getitem.
    destruct (fails w (EvDataCollator 8)), (fails w EvTrainer), (fails w EvTrain),
      (l_model l), (p !! "train"), (p !! "validation");
      simpl;
      (split;
       [ intros Hin;
         repeat (match goal with H : _ ∈ _ |- _ => inversion H; clear H; subst end);
         split_and!; eauto
       | intros (H1 & H2 & H3 & H4 & H5);
         try discriminate; try (by destruct H1); try (by destruct H2);
         try (by destruct H3);
         do 2 apply list_elem_of_further; apply list_elem_of_here ]).
  - intros [m Hm] [tr Htr] [va Hva] Hc Ht Hr.
    unfold main_train, getitem, read_local.
    rewrite Hm, Htr, Hva, (call_succeeds w _ Hc), (call_succeeds w _ Ht),
      (call_succeeds w _ Hr).
    rewrite !bind_Return. eexists. reflexivity.
Qed.

Lemma main_train_never_saves_witness :
  exists msg,
    main_train Sample.world_ok Sample.args_valid (Sample.locals (Some Sample.peft_model))
      Sample.both_splits = ([EvDataCollator 8; EvTrainer; EvTrain], Raise (TypeError msg)).
Proof.
  destruct (main_train_never_saves Sample.world_ok Sample.args_valid
              (Sample.locals (Some Sample.peft_model)) Sample.both_splits)
    as (_ & _ & _ & H).
  apply H; solve [reflexivity | vm_compute; eauto].
Defined.

(** X28.  The xla entry point [_mp_fn] is [main] whatever the index, so it
    shares its fate: it ends in an exception, and never builds the trainer,
    trains or saves. *)
Theorem entry_points_never_complete (w : World) (index : Z) (a : Arguments) :
  _mp_fn w index a = main w a /\
  (exists e, (_mp_fn w index a).2 = Raise e) /\
  (EvTrainer ∉ (_mp_fn w index a).1) /\ (EvTrain ∉ (_mp_fn w index a).1) /\
  (forall dir, EvSavePretrained dir ∉ (_mp_fn w index a).1).
Proof. split; [reflexivity|]. unfold _mp_fn. apply main_never_completes. Qed.

(** ** [print_trainable_parameters] *)

Lemma count_parameters_from (ps : list (string * TorchParameter)) (tr al : nat) :
  fold_left
    (fun '(trainable_params, all_param) '(_, param) =>
       let all_param := all_param + numel param in
       if requires_grad param then (trainable_params + numel param, all_param)
       else (trainable_params, all_param))
    ps (tr, al) =
  (tr + sum_list_with (fun p => if requires_grad p.2 then numel p.2 else 0) ps,
   al + sum_list_with (fun p => numel p.2) ps).
Proof.
  revert tr al. induction ps as [|[name param] ps IH]; intros tr al; simpl.
  - f_equal; lia.
  - destruct (requires_grad param) eqn:Hg; rewrite IH; simpl; rewrite ?Hg;
      f_equal; lia.
Qed.

Lemma sum_list_with_zero {A} (f : A -> nat) (l : list A) :
  sum_list_with f l = 0 <-> Forall (fun x => f x = 0) l.
Proof.
  induction l as [|x l IH]; simpl.
  - split; [constructor|done].
  - rewrite Forall_cons, <- IH. lia.
Qed.

(** X29.  [print_trainable_parameters] reports the total size of the
    parameters that require a gradient and the total size of all parameters,
    the first never above the second.  It raises [ZeroDivisionError] instead
    of printing exactly when every parameter is empty, in particular for a
    model without parameters. *)
Theorem print_trainable_parameters_counts (ps : list (string * TorchParameter)) :
  sum_list_with (fun p => if requires_grad p.2 then numel p.2 else 0) ps
    <= sum_list_with (fun p => numel p.2) ps /\
  print_trainable_parameters ps =
    (if (sum_list_with (fun p => numel p.2) ps =? 0)%nat then ZeroDivisionError
     else Printed (sum_list_with (fun p => if requires_grad p.2 then numel p.2 else 0) ps)
                  (sum_list_with (fun p => numel p.2) ps)) /\
  (print_trainable_parameters ps = ZeroDivisionError <->
   Forall (fun p => numel p.2 = 0) ps).
Proof.
  assert (Hprint : print_trainable_parameters ps =
    (if (sum_list_with (fun p => numel p.2) ps =? 0)%nat then ZeroDivisionError
     else Printed (sum_list_with (fun p => if requires_grad p.2 then numel p.2 else 0) ps)
                  (sum_list_with (fun p => numel p.2) ps))).
  { unfold print_trainable_parameters, count_parameters.
    by rewrite count_parameters_from. }
  split_and!; [|exact Hprint|].
  - clear Hprint. induction ps as [|[name param] ps IH]; simpl; [done|].
    destruct (requires_grad param); lia.
  - rewrite Hprint, <- sum_list_with_zero.
    destruct (Nat.eqb_spec (sum_list_with (fun p => numel p.2) ps) 0); split; done.
Qed.

Example print_adapter_parameters :
  print_trainable_parameters Sample2.adapter_parameters = Printed 64 576.
Proof. reflexivity. Qed.
